(** * LibreOffice MCP supervisor ([mcp-servers/libreoffice/main.py])

    A shallow embedding of the process supervisor: executable discovery,
    idempotent launch of the office suite and of the helper, the shutdown
    routine and the top-level orchestration.  Python's module globals, the
    interpreter's registrations (atexit, signal) and the operating system's
    process table are an explicit [State]; everything the program can only
    observe (platform name, file system, ports, behaviour of children,
    arrival of SIGINT) is a [World]. *)

From Stdlib Require Import String Ascii List ZArith Bool Lia DecimalString.
Import ListNotations.
Open Scope string_scope.

(** ** Python values *)

(** The exception classes that occur in [main.py] or can reach it. The
    first five derive from [Exception]; [KeyboardInterrupt] and
    [SystemExit] derive from [BaseException] only. *)
Inductive exn : Type :=
| OSError (msg : string)
| FileNotFoundError (msg : string)
| TimeoutExpired (msg : string)
| IndexError (msg : string)
| OtherException (msg : string)
| KeyboardInterrupt
| SystemExit (code : Z).

(** [isinstance(e, Exception)] *)
Definition is_Exception (e : exn) : bool :=
  match e with
  | KeyboardInterrupt | SystemExit _ => false
  | _ => true
  end.

(** [str(e)] *)
Definition exn_str (e : exn) : string :=
  match e with
  | OSError m | FileNotFoundError m | TimeoutExpired m
  | IndexError m | OtherException m => m
  | KeyboardInterrupt => ""
  | SystemExit c => NilZero.string_of_int (Z.to_int c)
  end.

Inductive result (A : Type) : Type :=
| Ok (a : A)
| Raise (e : exn).
Arguments Ok {A} a.
Arguments Raise {A} e.

(** [str(n)] for a Python int *)
Definition str_of_Z (z : Z) : string := NilZero.string_of_int (Z.to_int z).

Definition lower_ascii (c : ascii) : ascii :=
  let n := nat_of_ascii c in
  if (65 <=? n)%nat && (n <=? 90)%nat then ascii_of_nat (n + 32) else c.

(** [s.lower()], on the ASCII range *)
Fixpoint lower (s : string) : string :=
  match s with
  | EmptyString => EmptyString
  | String c r => String (lower_ascii c) (lower r)
  end.

Definition newline : string := String (ascii_of_nat 10) EmptyString.

(** ** [posixpath]: the [os.path] of a POSIX platform *)
Module posixpath.

Definition is_sep (c : ascii) : bool := Ascii.eqb c "/"%char.

Fixpoint has_sep (s : string) : bool :=
  match s with
  | EmptyString => false
  | String c r => is_sep c || has_sep r
  end.

(** [p[:p.rfind('/') + 1]] *)
Fixpoint head (p : string) : string :=
  match p with
  | EmptyString => EmptyString
  | String c r =>
      if has_sep r then String c (head r)
      else if is_sep c then String c EmptyString
      else EmptyString
  end.

Fixpoint all_sep (s : string) : bool :=
  match s with
  | EmptyString => true
  | String c r => is_sep c && all_sep r
  end.

(** [s.rstrip('/')] *)
Fixpoint rstrip_sep (s : string) : string :=
  match s with
  | EmptyString => EmptyString
  | String c r =>
      match rstrip_sep r with
      | EmptyString => if is_sep c then EmptyString else String c EmptyString
      | r' => String c r'
      end
  end.

Definition dirname (p : string) : string :=
  let h := head p in
  if all_sep h then h else rstrip_sep h.

Fixpoint ends_with_sep (s : string) : bool :=
  match s with
  | EmptyString => false
  | String c EmptyString => is_sep c
  | String _ r => ends_with_sep r
  end.

Definition starts_with_sep (s : string) : bool :=
  match s with
  | String c _ => is_sep c
  | EmptyString => false
  end.

Definition join (a b : string) : string :=
  if starts_with_sep b then b
  else match a with
       | EmptyString => b
       | _ => if ends_with_sep a then a ++ b else a ++ "/" ++ b
       end.

End posixpath.

(** ** The environment *)

Definition pid : Type := nat.

(** What the program observes but does not control. Ports and signals
    change over time: their oracles take the number of interactions made
    so far. *)
Record World : Type := {
  platform_system : string;                      (* platform.system() *)
  sys_argv : list string;                        (* sys.argv *)
  sys_executable : string;                       (* sys.executable *)
  module_file : string;                          (* __file__ of main.py *)
  cwd : string;                                  (* working directory of the caller *)
  os_path_dirname : string -> string;            (* os.path.dirname *)
  os_path_join : string -> string -> string;     (* os.path.join *)
  path_exists : string -> bool;                  (* os.path.exists *)
  connect_ex : nat -> Z -> result Z;             (* s.connect_ex(("localhost", port)) *)
  popen_error : list string -> option exn;       (* spawn failure of subprocess.Popen *)
  run_error : list string -> option exn;         (* failure of subprocess.run *)
  graceful : pid -> bool;                        (* exits within the grace period after SIGTERM *)
  reaped : nat -> pid -> bool;                   (* sent SIGKILL now, gone when polled next *)
  sigint : nat -> bool                           (* SIGINT arrives during the blocking call *)
}.

Definition with_cwd (w : World) (d : string) : World :=
  {| platform_system := platform_system w;
     sys_argv := sys_argv w;
     sys_executable := sys_executable w;
     module_file := module_file w;
     cwd := d;
     os_path_dirname := os_path_dirname w;
     os_path_join := os_path_join w;
     path_exists := path_exists w;
     connect_ex := connect_ex w;
     popen_error := popen_error w;
     run_error := run_error w;
     graceful := graceful w;
     reaped := reaped w;
     sigint := sigint w |}.

(** Observable actions, in the order they happen. *)
Inductive event : Type :=
| EPrint (msg : string)                    (* print(msg, file=sys.stderr) *)
| EConnect (port : Z)                      (* the port probe *)
| EExists (path : string)                  (* os.path.exists(path) *)
| EPopen (args : list string) (p : pid)    (* subprocess.Popen(args), child p *)
| ESleep (secs : Z)                        (* time.sleep(secs) *)
| ERun (args : list string)                (* subprocess.run(args) *)
| EPoll (p : pid)
| ETerminate (p : pid)
| EWait (p : pid) (timeout : Z)
| EKill (p : pid)
| ESigint.                                 (* SIGINT delivered *)

(** Functions of the module that are registered with the interpreter. *)
Inductive callback : Type :=
| cb_cleanup_processes
| cb_signal_handler.

Record State : Type := {
  office_process : option pid;       (* global office_process *)
  helper_process : option pid;       (* global helper_process *)
  atexit_handlers : list callback;   (* atexit registrations, oldest first *)
  sigint_handler : option callback;  (* None: Python's default, raising KeyboardInterrupt *)
  sigterm_handler : option callback;
  next_pid : pid;                    (* the next child the OS hands out *)
  signalled : list pid;              (* children that were sent SIGTERM *)
  exited : list pid;                 (* children that have exited *)
  trace : list event
}.

Definition initial_state : State :=
  {| office_process := None; helper_process := None;
     atexit_handlers := []; sigint_handler := None; sigterm_handler := None;
     next_pid := 0%nat; signalled := []; exited := []; trace := [] |}.

Definition set_office_process (h : option pid) (s : State) : State :=
  {| office_process := h; helper_process := helper_process s;
     atexit_handlers := atexit_handlers s; sigint_handler := sigint_handler s;
     sigterm_handler := sigterm_handler s; next_pid := next_pid s;
     signalled := signalled s; exited := exited s; trace := trace s |}.

Definition set_helper_process (h : option pid) (s : State) : State :=
  {| office_process := office_process s; helper_process := h;
     atexit_handlers := atexit_handlers s; sigint_handler := sigint_handler s;
     sigterm_handler := sigterm_handler s; next_pid := next_pid s;
     signalled := signalled s; exited := exited s; trace := trace s |}.

Definition set_atexit_handlers (l : list callback) (s : State) : State :=
  {| office_process := office_process s; helper_process := helper_process s;
     atexit_handlers := l; sigint_handler := sigint_handler s;
     sigterm_handler := sigterm_handler s; next_pid := next_pid s;
     signalled := signalled s; exited := exited s; trace := trace s |}.

Definition set_sigint_handler (h : option callback) (s : State) : State :=
  {| office_process := office_process s; helper_process := helper_process s;
     atexit_handlers := atexit_handlers s; sigint_handler := h;
     sigterm_handler := sigterm_handler s; next_pid := next_pid s;
     signalled := signalled s; exited := exited s; trace := trace s |}.

Definition set_sigterm_handler (h : option callback) (s : State) : State :=
  {| office_process := office_process s; helper_process := helper_process s;
     atexit_handlers := atexit_handlers s; sigint_handler := sigint_handler s;
     sigterm_handler := h; next_pid := next_pid s;
     signalled := signalled s; exited := exited s; trace := trace s |}.

Definition set_next_pid (n : pid) (s : State) : State :=
  {| office_process := office_process s; helper_process := helper_process s;
     atexit_handlers := atexit_handlers s; sigint_handler := sigint_handler s;
     sigterm_handler := sigterm_handler s; next_pid := n;
     signalled := signalled s; exited := exited s; trace := trace s |}.

Definition set_signalled (l : list pid) (s : State) : State :=
  {| office_process := office_process s; helper_process := helper_process s;
     atexit_handlers := atexit_handlers s; sigint_handler := sigint_handler s;
     sigterm_handler := sigterm_handler s; next_pid := next_pid s;
     signalled := l; exited := exited s; trace := trace s |}.

Definition set_exited (l : list pid) (s : State) : State :=
  {| office_process := office_process s; helper_process := helper_process s;
     atexit_handlers := atexit_handlers s; sigint_handler := sigint_handler s;
     sigterm_handler := sigterm_handler s; next_pid := next_pid s;
     signalled := signalled s; exited := l; trace := trace s |}.

Definition set_trace (t : list event) (s : State) : State :=
  {| office_process := office_process s; helper_process := helper_process s;
     atexit_handlers := atexit_handlers s; sigint_handler := sigint_handler s;
     sigterm_handler := sigterm_handler s; next_pid := next_pid s;
     signalled := signalled s; exited := exited s; trace := t |}.

Definition mem_pid (p : pid) (l : list pid) : bool := existsb (Nat.eqb p) l.

(** ** A state and exception monad *)

Definition M (A : Type) : Type := State -> result A * State.

Definition ret {A} (a : A) : M A := fun s => (Ok a, s).

Definition raise {A} (e : exn) : M A := fun s => (Raise e, s).

Definition bind {A B} (m : M A) (f : A -> M B) : M B :=
  fun s =>
    match m s with
    | (Ok a, s') => f a s'
    | (Raise e, s') => (Raise e, s')
    end.

(** [try: m  except <classes>: h]; [h e = None] when no clause matches. *)
Definition try_except {A} (m : M A) (h : exn -> option (M A)) : M A :=
  fun s =>
    match m s with
    | (Ok a, s') => (Ok a, s')
    | (Raise e, s') =>
        match h e with
        | Some k => k s'
        | None => (Raise e, s')
        end
    end.

Declare Scope py_scope.
Delimit Scope py_scope with py.
Notation "x <- m ;; k" := (bind m (fun x => k))
  (at level 61, m at next level, right associativity) : py_scope.
Notation "m ;; k" := (bind m (fun _ => k))
  (at level 61, right associativity) : py_scope.
Open Scope py_scope.

Definition get {A} (f : State -> A) : M A := fun s => (Ok (f s), s).

Definition modify (f : State -> State) : M unit := fun s => (Ok tt, f s).

Definition emit (e : event) : M unit :=
  modify (fun s => set_trace (trace s ++ [e]) s).

(** ** The program *)

Definition office_paths_windows : list string :=
  [ "C:\Program Files\Collabora Office\program\soffice.exe";
    "C:\Program Files (x86)\Collabora Office\program\soffice.exe";
    "C:\Program Files\LibreOffice\program\soffice.exe" ].

Definition office_paths_linux : list string :=
  [ "/usr/bin/coolwsd";
    "/usr/bin/collaboraoffice";
    "/opt/collaboraoffice/program/soffice";
    "/usr/lib/collaboraoffice/program/soffice" ].

Definition python_paths_windows : list string :=
  [ "C:\Program Files\Collabora Office\program\python.exe";
    "C:\Program Files (x86)\Collabora Office\program\python.exe";
    "C:\Program Files\LibreOffice\program\python.exe" ].

Definition office_not_found_msg : string :=
  "Neither Collabora Office nor LibreOffice executable found. Please install either office suite.".

Definition timeout_msg : string := "timed out".

Definition sys_exit {A} (code : Z) : M A := raise (SystemExit code).

Definition print (msg : string) : M unit := emit (EPrint msg).

Section Program.

Variable w : World.

(** *** Library calls *)

Definition os_path_exists (path : string) : M bool :=
  emit (EExists path);;
  ret (path_exists w path).

(** [subprocess.Popen(args)]: the handle of a fresh child. *)
Definition Popen (args : list string) : M pid :=
  match popen_error w args with
  | Some e => raise e
  | None =>
      p <- get next_pid;;
      modify (set_next_pid (S p));;
      emit (EPopen args p);;
      ret p
  end.

(** [proc.poll() is None] *)
Definition poll_is_None (p : pid) : M bool :=
  emit (EPoll p);;
  ex <- get exited;;
  ret (negb (mem_pid p ex)).

(** [proc.terminate()] *)
Definition terminate (p : pid) : M unit :=
  emit (ETerminate p);;
  modify (fun s => set_signalled (p :: signalled s) s).

(** [proc.wait(timeout=t)]: returns once the child has exited, raises
    [TimeoutExpired] when it has not by the end of the period. A running
    child exits within the period when it was sent SIGTERM and reacts to
    it ([graceful]). No signal is delivered to the supervisor while it
    waits here: interrupts are modelled at the blocking calls of the
    launch sequence, [time_sleep] and [subprocess_run]. *)
Definition wait (p : pid) (timeout : Z) : M unit :=
  emit (EWait p timeout);;
  ex <- get exited;;
  sg <- get signalled;;
  if mem_pid p ex then ret tt
  else if mem_pid p sg && graceful w p
       then modify (fun s => set_exited (p :: exited s) s)
       else raise (TimeoutExpired timeout_msg).

(** [proc.kill()]: sends SIGKILL and returns; it does not wait for the
    child. Whether the child is gone by the time the program looks at it
    again is up to the system ([reaped]). When it is not, the next
    [poll()] still reports the child running, and a later shutdown asks
    it to terminate once more. The model lets a SIGKILL take effect
    before the next look or not at all: a child that outlives it is
    treated as any other running child from then on. *)
Definition kill (p : pid) : M unit :=
  t <- get (fun s => length (trace s));;
  emit (EKill p);;
  if reaped w t p
  then modify (fun s => set_exited (p :: exited s) s)
  else ret tt.

(** *** [cleanup_processes] *)
Definition cleanup_processes : M unit :=
  print "Cleaning up processes...";;
  helper <- get helper_process;;
  match helper with
  | Some hp =>
      running <- poll_is_None hp;;
      if running then
        print "Terminating helper process...";;
        terminate hp;;
        try_except (wait hp 5)
          (fun e => match e with
                    | TimeoutExpired _ => Some (kill hp)
                    | _ => None
                    end)
      else ret tt
  | None => ret tt
  end;;
  office <- get office_process;;
  match office with
  | Some op =>
      running <- poll_is_None op;;
      if running then
        print "Terminating office process...";;
        terminate op;;
        try_except (wait op 5)
          (fun e => match e with
                    | TimeoutExpired _ => Some (kill op)
                    | _ => None
                    end)
      else ret tt
  | None => ret tt
  end.

(** *** [signal_handler] *)
Definition signal_handler : M unit :=
  print (newline ++ "Received interrupt signal. Shutting down...");;
  cleanup_processes;;
  sys_exit 0.

Definition call_back (cb : callback) : M unit :=
  match cb with
  | cb_cleanup_processes => cleanup_processes
  | cb_signal_handler => signal_handler
  end.

(** A blocking call is where SIGINT reaches the program: the installed
    handler runs, and without one Python raises [KeyboardInterrupt]. *)
Definition deliver_sigint : M unit :=
  t <- get (fun s => length (trace s));;
  if sigint w t then
    emit ESigint;;
    h <- get sigint_handler;;
    match h with
    | Some cb => call_back cb
    | None => raise KeyboardInterrupt
    end
  else ret tt.

Definition time_sleep (secs : Z) : M unit :=
  emit (ESleep secs);;
  deliver_sigint.

Definition subprocess_run (args : list string) : M unit :=
  emit (ERun args);;
  match run_error w args with
  | Some e => raise e
  | None => deliver_sigint
  end.

(** [for path in possible_paths: if os.path.exists(path): return path] *)
Fixpoint first_existing (possible_paths : list string) : M (option string) :=
  match possible_paths with
  | [] => ret None
  | path :: rest =>
      found <- os_path_exists path;;
      if found then ret (Some path) else first_existing rest
  end.

(** *** [get_office_path] *)
Definition get_office_path : M string :=
  let system := lower (platform_system w) in
  possible_paths <-
    (if system =? "windows" then ret office_paths_windows
     else if system =? "linux" then ret office_paths_linux
     else raise (OSError ("Unsupported operating system: " ++ system)));;
  found <- first_existing possible_paths;;
  match found with
  | Some path => ret path
  | None => raise (FileNotFoundError office_not_found_msg)
  end.

(** *** [get_python_path] *)
Definition get_python_path : M string :=
  let system := lower (platform_system w) in
  if system =? "windows" then
    found <- first_existing python_paths_windows;;
    match found with
    | Some path => ret path
    | None => ret (sys_executable w)
    end
  else ret (sys_executable w).

(** *** [is_port_in_use] *)
Definition is_port_in_use (port : Z) : M bool :=
  t <- get (fun s => length (trace s));;
  emit (EConnect port);;
  match connect_ex w t port with
  | Ok code => ret (code =? 0)%Z
  | Raise e => raise e
  end.

(** *** [start_office] *)
Definition start_office (port : Z) : M unit :=
  in_use <- is_port_in_use port;;
  if negb in_use then
    print "Starting Collabora Office with socket...";;
    soffice_path <- get_office_path;;
    p <- Popen [ soffice_path;
                 "-env:UserInstallation=file:///C:/Temp/LibreOfficeHeadlessProfile";
                 "--headless";
                 "--accept=socket,host=localhost,port=" ++ str_of_Z port ++ ";urp;";
                 "--norestore";
                 "--nodefault";
                 "--nologo" ];;
    modify (set_office_process (Some p));;
    time_sleep 3
  else
    print ("Office socket already running on port " ++ str_of_Z port).

(** [sys.argv[0]] *)
Definition sys_argv_0 : M string :=
  match sys_argv w with
  | a :: _ => ret a
  | [] => raise (IndexError "list index out of range")
  end.

(** *** [start_helper] *)
Definition start_helper : M unit :=
  in_use <- is_port_in_use 8765;;
  if negb in_use then
    print "Starting Office helper...";;
    argv0 <- sys_argv_0;;
    let exe_dir := os_path_dirname w argv0 in
    let helper_script := os_path_join w exe_dir "helper.py" in
    python_path <- get_python_path;;
    p <- Popen [ python_path; helper_script ];;
    modify (set_helper_process (Some p));;
    time_sleep 3
  else
    print "Helper script already running on port 8765".

(** *** [start_mcp_server] *)
Definition start_mcp_server : M unit :=
  print "Starting Office MCP server...";;
  let server_script :=
    os_path_join w (os_path_dirname w (module_file w)) "libre.py" in
  subprocess_run [ sys_executable w; server_script ].

(** The body of the [try] in [main]. *)
Definition startup : M unit :=
  start_office 2002;;
  start_helper;;
  start_mcp_server.

(** The registrations at the head of [main]: [atexit.register] and the
    two [signal.signal] calls. *)
Definition install_handlers : M unit :=
  modify (fun s => set_atexit_handlers (atexit_handlers s ++ [cb_cleanup_processes]) s);;
  modify (set_sigint_handler (Some cb_signal_handler));;
  if negb (platform_system w =? "Windows")
  then modify (set_sigterm_handler (Some cb_signal_handler))
  else ret tt.

(** *** [main] *)
Definition main : M unit :=
  install_handlers;;
  try_except startup
    (fun e =>
       match e with
       | KeyboardInterrupt =>
           Some (print (newline ++ "Received keyboard interrupt. Shutting down...");;
                 cleanup_processes;;
                 sys_exit 0)
       | _ =>
           if is_Exception e then
             Some (print ("An error occurred: " ++ exn_str e);;
                   cleanup_processes;;
                   sys_exit 1)
           else None
       end).

(** *** Running the module as a script *)

(** Interpreter shutdown calls the atexit registrations, newest first;
    what a handler raises is reported and dropped. *)
Fixpoint run_atexit (cbs : list callback) (s : State) : State :=
  match cbs with
  | [] => s
  | cb :: rest => run_atexit rest (snd (call_back cb s))
  end.

(** The exit status Python gives the process. *)
Definition exit_status (r : result unit) : Z :=
  match r with
  | Ok _ => 0
  | Raise (SystemExit code) => code
  | Raise KeyboardInterrupt => 130
  | Raise _ => 1
  end.

(** [if __name__ == "__main__": main()] *)
Definition script (s : State) : Z * State :=
  let (r, s1) := main s in
  (exit_status r, run_atexit (rev (atexit_handlers s1)) s1).

(** *** Sequences of calls into the module *)

Inductive call : Type :=
| call_start_office (port : Z)
| call_start_helper
| call_cleanup_processes.

Definition do_call (c : call) : M unit :=
  match c with
  | call_start_office port => start_office port
  | call_start_helper => start_helper
  | call_cleanup_processes => cleanup_processes
  end.

(** The caller goes on whether a call returned or raised. *)
Fixpoint run_calls (cs : list call) (s : State) : State :=
  match cs with
  | [] => s
  | c :: rest => run_calls rest (snd (do_call c s))
  end.

End Program.

(** ** Vocabulary of the statements *)

(** [x] occurs in the list, and [y] occurs somewhere after it. *)
Inductive before {A : Type} (x y : A) : list A -> Prop :=
| before_here (l : list A) : In y l -> before x y (x :: l)
| before_later (a : A) (l : list A) : before x y l -> before x y (a :: l).

(** The handle of a role refers to child [p]. *)
Definition owned (s : State) (p : pid) : Prop :=
  office_process s = Some p \/ helper_process s = Some p.

(** [poll()] on the child would report that it has exited. *)
Definition has_exited (s : State) (p : pid) : Prop :=
  mem_pid p (exited s) = true.

Definition is_running (s : State) (p : pid) : Prop :=
  mem_pid p (exited s) = false.

(** As far as the program can tell, the child is stopped: a poll would
    report that it has exited, or at least SIGKILL is among the events
    [evs]. A call of [kill()] returns without waiting, so a killed child
    may still be reported running by the next poll. *)
Definition stopped (evs : list event) (s : State) (p : pid) : Prop :=
  has_exited s p \/ In (EKill p) evs.

(** A termination request of either kind. *)
Definition stops (e : event) : bool :=
  match e with
  | ETerminate _ | EKill _ => true
  | _ => false
  end.

(** Asking child [p] to terminate in state [s] and then waiting the grace
    period ends in [TimeoutExpired]. *)
Definition wait_times_out (w : World) (s : State) (p : pid) : Prop :=
  exists msg,
    fst ((terminate p;; wait w p 5) s) = Raise (TimeoutExpired msg).

(** The child was started by a [Popen] recorded in the trace. *)
Definition spawned_in (t : list event) (p : pid) : Prop :=
  exists args, In (EPopen args p) t.

(** A specification of a computation: from a state that satisfies [P]
    the outcome and the final state satisfy [Q]. *)
Definition hoare {A : Type} (P : State -> Prop) (m : M A)
    (Q : result A -> State -> Prop) : Prop :=
  forall s, P s -> Q (fst (m s)) (snd (m s)).

(** The computation maintains [I], whether it returns or raises. *)
Definition keeps {A : Type} (I : State -> Prop) (m : M A) : Prop :=
  hoare I m (fun _ s => I s).

(** Ownership discipline of a run: handles refer to children the run has
    spawned, the two roles never share a child, and only children of the
    run were ever asked to stop. *)
Record well_owned (s : State) : Prop := {
  owned_spawned : forall p, owned s p -> spawned_in (trace s) p;
  spawned_below : forall args p, In (EPopen args p) (trace s) -> (p < next_pid s)%nat;
  roles_distinct : forall p q,
      office_process s = Some p -> helper_process s = Some q -> p <> q;
  stopped_spawned : forall p,
      In (ETerminate p) (trace s) \/ In (EKill p) (trace s) ->
      spawned_in (trace s) p
}.

(** The handler of the module answers SIGINT and none has arrived yet. *)
Definition armed (s : State) : Prop :=
  sigint_handler s = Some cb_signal_handler /\ ~ In ESigint (trace s).

(** The shutdown routine has run from [s] after the log line [msg]: a
    child that [s] owned and that was running has been asked to
    terminate, and every owned child has exited or has been killed. *)
Definition cleaned_up (msg : string) (s final : State) : Prop :=
  exists evs,
    trace final
    = (trace s ++ EPrint msg :: EPrint "Cleaning up processes..." :: evs)%list
    /\ forall p, owned s p ->
         (is_running s p -> In (ETerminate p) evs) /\ stopped evs final p.

(** SIGINT has arrived and the handler has answered it: its log line and
    the first line of the shutdown routine follow the signal, and every
    owned child has exited or has been killed after that line. *)
Definition interrupted (s : State) : Prop :=
  exists before_it after_it,
    trace s
    = (before_it
       ++ ESigint
       :: EPrint (newline ++ "Received interrupt signal. Shutting down...")
       :: EPrint "Cleaning up processes..."
       :: after_it)%list
    /\ forall p, owned s p -> stopped after_it s p.

(** A step that touches no handle and no registration, delivers no
    signal, spawns nothing, asks only owned children to stop, and lets no
    exited child run again. *)
Record quiet_step (s s' : State) : Prop := {
  quiet_office : office_process s' = office_process s;
  quiet_helper : helper_process s' = helper_process s;
  quiet_atexit : atexit_handlers s' = atexit_handlers s;
  quiet_sigint : sigint_handler s' = sigint_handler s;
  quiet_next_pid : next_pid s' = next_pid s;
  quiet_trace : exists evs,
      trace s' = (trace s ++ evs)%list
      /\ (forall e, In e evs ->
            match e with
            | EPopen _ _ | ESigint => False
            | _ => True
            end)
      /\ (forall p, In (ETerminate p) evs \/ In (EKill p) evs -> owned s p);
  quiet_exited : forall p, has_exited s p -> has_exited s' p
}.

(** Events that a quiet step may add without an owner to answer for. *)
Definition harmless (e : event) : Prop :=
  match e with
  | EPopen _ _ | ESigint | ETerminate _ | EKill _ => False
  | _ => True
  end.

(** Every step of the computation is quiet. *)
Definition quiet {A : Type} (m : M A) : Prop :=
  forall s, quiet_step s (snd (m s)).

(** What holds after a computation that started [armed]: either still no
    signal has arrived, or it did, the handler answered it and its
    [SystemExit(0)] is what the computation raised. *)
Definition answered {A : Type} (r : result A) (s : State) : Prop :=
  sigint_handler s = Some cb_signal_handler
  /\ (~ In ESigint (trace s)
      \/ (r = Raise (SystemExit 0) /\ interrupted s)).

Definition interruptible {A : Type} (m : M A) : Prop :=
  hoare armed m answered.

(** The absolute path that [path] denotes for a process whose working
    directory is [dir]. *)
Definition denotes (dir path : string) : string := posixpath.join dir path.

(** ** Concrete environments *)

Definition econnrefused : Z := 111.

Definition make_world (system : string) (argv : list string)
    (present : string -> bool) (probe : nat -> Z -> result Z)
    (obeys : pid -> bool) (interrupt : nat -> bool) : World :=
  {| platform_system := system;
     sys_argv := argv;
     sys_executable := "/usr/bin/python3";
     module_file := "/opt/smolpc/main.py";
     cwd := "/home/user";
     os_path_dirname := posixpath.dirname;
     os_path_join := posixpath.join;
     path_exists := present;
     connect_ex := probe;
     popen_error := fun _ => None;
     run_error := fun _ => None;
     graceful := obeys;
     reaped := fun _ _ => false;
     sigint := interrupt |}.

(** Linux, the office suite at the third candidate, both ports free. *)
Definition linux_world : World :=
  make_world "Linux" ["/opt/smolpc/main.py"]
    (fun p => p =? "/opt/collaboraoffice/program/soffice")
    (fun _ _ => Ok econnrefused)
    (fun p => Nat.eqb p 0) (fun _ => false).

(** As [linux_world], with both children reacting to SIGTERM within the
    grace period. *)
Definition obedient_world : World :=
  make_world "Linux" ["/opt/smolpc/main.py"]
    (fun p => p =? "/opt/collaboraoffice/program/soffice")
    (fun _ _ => Ok econnrefused)
    (fun _ => true) (fun _ => false).

(** Both ports already bound. *)
Definition busy_world : World :=
  make_world "Linux" ["/opt/smolpc/main.py"]
    (fun _ => false) (fun _ _ => Ok 0%Z) (fun _ => true) (fun _ => false).

(** A platform the resolver does not know. *)
Definition darwin_world : World :=
  make_world "Darwin" ["/opt/smolpc/main.py"]
    (fun _ => true) (fun _ _ => Ok econnrefused) (fun _ => true) (fun _ => false).

(** Windows without any office suite installed. *)
Definition bare_windows_world : World :=
  make_world "Windows" ["C:\smolpc\main.py"]
    (fun _ => false) (fun _ _ => Ok econnrefused) (fun _ => true) (fun _ => false).

(** SIGINT arrives while the supervisor waits for the office suite. *)
Definition sigint_world : World :=
  make_world "Linux" ["/opt/smolpc/main.py"]
    (fun p => p =? "/opt/collaboraoffice/program/soffice")
    (fun _ _ => Ok econnrefused)
    (fun _ => false) (fun t => Nat.eqb t 7).

(** Both children are launched, the helper ignores SIGTERM, and running
    the server then fails with [e]. *)
Definition server_fails_world (e : exn) : World :=
  {| platform_system := "Linux";
     sys_argv := ["/opt/smolpc/main.py"];
     sys_executable := "/usr/bin/python3";
     module_file := "/opt/smolpc/main.py";
     cwd := "/home/user";
     os_path_dirname := posixpath.dirname;
     os_path_join := posixpath.join;
     path_exists := fun p => p =? "/opt/collaboraoffice/program/soffice";
     connect_ex := fun _ _ => Ok econnrefused;
     popen_error := fun _ => None;
     run_error := fun _ => Some e;
     graceful := fun p => Nat.eqb p 0;
     reaped := fun _ _ => false;
     sigint := fun _ => false |}.

(** The module imported by a program of another directory, as when its
    functions are called under a test runner: [sys.argv[0]] is the
    runner, [__file__] is still [main.py]. *)
Definition imported_world : World :=
  make_world "Linux" ["/usr/local/bin/pytest"; "tests/test_main.py"]
    (fun _ => false) (fun _ _ => Ok econnrefused) (fun _ => true) (fun _ => false).

(** The module imported by [python -c], where [sys.argv[0]] is ["-c"]. *)
Definition inline_world : World :=
  make_world "Linux" ["-c"]
    (fun _ => false) (fun _ _ => Ok econnrefused) (fun _ => true) (fun _ => false).

(** Office suite is child 0, helper is child 1, both running. *)
Definition both_running : State :=
  {| office_process := Some 0%nat; helper_process := Some 1%nat;
     atexit_handlers := []; sigint_handler := None; sigterm_handler := None;
     next_pid := 2%nat; signalled := []; exited := []; trace := [] |}.

(** ** The launch helper of the test suite ([tests/test_mcp.py]) *)

(** [start_helper] as the tests define it: the script is looked up from
    the directory above the test file, and the [Popen] object is dropped,
    so the module never learns about the child. *)
Definition test_mcp_start_helper (w : World) (test_file : string) : M unit :=
  in_use <- is_port_in_use w 8765;;
  if negb in_use then
    print "Starting Office helper...";;
    let current_dir := os_path_dirname w test_file in
    let parent_dir := os_path_dirname w current_dir in
    let helper_script := os_path_join w parent_dir "helper.py" in
    python_path <- get_python_path w;;
    _ <- Popen w [ python_path; helper_script ];;
    time_sleep w 3
  else
    print "Helper script already running on port 8765".

(** ** Vocabulary of the further statements *)

(** The arguments [start_office] gives the office suite. *)
Definition office_arguments (soffice_path : string) (port : Z) : list string :=
  [ soffice_path;
    "-env:UserInstallation=file:///C:/Temp/LibreOfficeHeadlessProfile";
    "--headless";
    "--accept=socket,host=localhost,port=" ++ str_of_Z port ++ ";urp;";
    "--norestore";
    "--nodefault";
    "--nologo" ].

(** A step that touches no handle and no registration and spawns
    nothing; unlike a quiet step it may see SIGINT arrive. *)
Record calm_step (s s' : State) : Prop := {
  calm_office : office_process s' = office_process s;
  calm_helper : helper_process s' = helper_process s;
  calm_atexit : atexit_handlers s' = atexit_handlers s;
  calm_sigint : sigint_handler s' = sigint_handler s;
  calm_next_pid : next_pid s' = next_pid s;
  calm_trace : exists evs,
      trace s' = (trace s ++ evs)%list
      /\ (forall args p, ~ In (EPopen args p) evs)
      /\ (forall p, In (ETerminate p) evs \/ In (EKill p) evs -> owned s p);
  calm_exited : forall p, has_exited s p -> has_exited s' p
}.

Definition calm {A : Type} (m : M A) : Prop :=
  forall s, calm_step s (snd (m s)).

(** No child has been spawned so far. *)
Definition nothing_spawned (s : State) : Prop :=
  forall args p, ~ In (EPopen args p) (trace s).

(** Windows with the suite's own interpreter at the second candidate. *)
Definition windows_world : World :=
  make_world "Windows" ["C:\smolpc\main.py"]
    (fun p => p =? "C:\Program Files (x86)\Collabora Office\program\python.exe")
    (fun _ _ => Ok econnrefused) (fun _ => true) (fun _ => false).

(** What a launch did, read off the events it added: either it spawned
    nothing and did not pause, or it spawned one child with arguments
    accepted by [expected], made it the handle of the role and paused. *)
Definition launch_outcome (s s' : State) (evs : list event)
    (handle_before handle_after : option pid)
    (expected : list string -> Prop) : Prop :=
  ((forall args p, ~ In (EPopen args p) evs)
   /\ (forall secs, ~ In (ESleep secs) evs)
   /\ handle_after = handle_before
   /\ next_pid s' = next_pid s)
  \/ (exists args before_it after_it,
        evs = (before_it ++ EPopen args (next_pid s) :: ESleep 3 :: after_it)%list
        /\ expected args
        /\ (forall a p, ~ In (EPopen a p) before_it)
        /\ (forall a p, ~ In (EPopen a p) after_it)
        /\ handle_after = Some (next_pid s)
        /\ next_pid s' = S (next_pid s)).

(** The executable is a candidate of one of the two lists, and exists. *)
Definition office_executable (w : World) (path : string) : Prop :=
  path_exists w path = true
  /\ (In path office_paths_windows \/ In path office_paths_linux).

(** The arguments of the helper: an interpreter, and [helper.py] beside
    the path the supervisor was started as. *)
Definition helper_arguments (w : World) (args : list string) : Prop :=
  exists python_path argv0 rest,
    sys_argv w = argv0 :: rest
    /\ args = [ python_path;
                os_path_join w (os_path_dirname w argv0) "helper.py" ].



(** * Proofs *)

Arguments mem_pid : simpl never.

(** ** Lists and membership *)

Lemma mem_pid_cons (p q : pid) (l : list pid) :
  mem_pid p (q :: l) = (Nat.eqb p q || mem_pid p l).
Proof. reflexivity. Qed.

Lemma mem_pid_head (p : pid) (l : list pid) : mem_pid p (p :: l) = true.
Proof. rewrite mem_pid_cons, Nat.eqb_refl. reflexivity. Qed.

Create HintDb shutdown.
#[local] Hint Constructors before : shutdown.
#[local] Hint Resolve in_eq in_cons : shutdown.

(** ** Symbolic execution of the shutdown routine *)

Ltac unfold_py :=
  unfold cleanup_processes, signal_handler, poll_is_None, terminate, wait, kill,
    print, sys_exit, emit, modify, get, bind, try_except, ret, raise in *.

(** One case split on what the routine tests next. *)
Ltac step_cleanup :=
  cbn;
  repeat (rewrite ?mem_pid_head; cbn);
  match goal with
  | H : mem_pid ?p ?l = _ |- context [mem_pid ?p ?l] => rewrite H
  | |- context [graceful ?w ?p] => destruct (graceful w p) eqn:?
  | |- context [reaped ?w ?t ?p] => destruct (reaped w t p) eqn:?
  | |- context [mem_pid ?p (?q :: ?l)] => rewrite (mem_pid_cons p q l)
  | |- context [Nat.eqb ?p ?q] => destruct (Nat.eqb_spec p q); subst
  | |- context [mem_pid ?p ?l] => destruct (mem_pid p l) eqn:?
  end.

(** Events of a literal list, one at a time. *)
Ltac in_events :=
  repeat match goal with
    | H : In _ (_ :: _) |- _ => destruct H
    | H : In _ [] |- _ => destruct H
    | H : _ \/ _ |- _ => destruct H
    | H : @eq event ?a ?b |- _ =>
        first [ is_var b; subst b | is_var a; subst a
              | discriminate H | inversion H; subst; clear H ]
    | H : Some _ = Some _ |- _ => inversion H; subst; clear H
    | H : @eq (option pid) _ _ |- _ => discriminate H
    end.

Ltac mem_solve :=
  rewrite ?mem_pid_cons, ?Nat.eqb_refl;
  repeat match goal with
    | H : mem_pid ?p ?l = true |- context [mem_pid ?p ?l] => rewrite H
    end;
  rewrite ?orb_true_r; cbn; auto.

Ltac norm_state :=
  cbv beta iota delta
    [set_trace set_exited set_signalled set_next_pid set_office_process
     set_helper_process set_atexit_handlers set_sigint_handler set_sigterm_handler
     office_process helper_process atexit_handlers sigint_handler sigterm_handler
     next_pid signalled exited trace fst snd];
  rewrite <- ?app_assoc; cbn [app].


(** The shutdown routine in one statement: it returns, it only adds
    events, children are only marked, every owned child has exited or
    been killed at the end, every request to stop goes to a child that a
    handle refers to and that was still running, and every such child is
    asked to terminate. *)
Lemma cleanup_processes_spec (w : World) (s : State) :
  exists evs sg ex,
    cleanup_processes w s
    = (Ok tt, set_exited ex (set_signalled sg
                (set_trace (trace s ++ EPrint "Cleaning up processes..." :: evs) s)))
    /\ (forall p, owned s p -> mem_pid p ex = true \/ In (EKill p) evs)
    /\ (forall p, mem_pid p (exited s) = true -> mem_pid p ex = true)
    /\ (forall e, In e evs -> stops e = true ->
          exists p, (e = ETerminate p \/ e = EKill p) /\ owned s p /\ is_running s p)
    /\ (forall e, In e evs ->
          match e with
          | EPrint _ | EPoll _ | ETerminate _ | EWait _ _ | EKill _ => True
          | _ => False
          end)
    /\ (forall p, owned s p -> is_running s p -> In (ETerminate p) evs).
Proof.
  destruct s as [o h ax si st np sg ex tr].
  unfold_py. unfold owned, is_running. cbn.
  destruct h as [hp|]; destruct o as [op|]; repeat step_cleanup;
    (eexists; eexists; eexists; split; [cbn; norm_state; reflexivity|]);
    (split; [intros p Hp; in_events;
             first [solve [left; mem_solve] | right; cbn; auto 20]|]);
    (split; [intros p Hp; mem_solve|]);
    (split; [intros e He Hs; in_events; try discriminate Hs; eexists; (split; [eauto|]); auto|]);
    (split; [intros e He; in_events; exact I|]);
    intros p Hp Hr; in_events; first [congruence | cbn; auto 20].
Qed.

Ltac invert_before :=
  repeat match goal with
    | H : before _ _ (_ :: _) |- _ => inversion H; subst; clear H
    | H : before _ _ [] |- _ => inversion H
    end.

(** ** Shutdown *)

(** C10. Before any launch both handles are unset; the shutdown routine
    then logs its first line, asks nothing of any process and returns. *)
Theorem cleanup_before_any_launch (w : World) (s : State) :
  office_process s = None ->
  helper_process s = None ->
  cleanup_processes w s
  = (Ok tt, set_trace (trace s ++ [EPrint "Cleaning up processes..."]) s).
Proof.
  intros Ho Hh. unfold_py. cbn. rewrite Hh. cbn. rewrite Ho. reflexivity.
Qed.

Lemma cleanup_before_any_launch_witness :
  cleanup_processes linux_world initial_state
  = (Ok tt, set_trace [EPrint "Cleaning up processes..."] initial_state).
Proof.
  apply (cleanup_before_any_launch linux_world initial_state); reflexivity.
Defined.

(** C2. With both children owned and running, the helper is asked to
    terminate before the office suite is; the events of the routine are a
    function of how the two children react and of nothing else. *)
Theorem shutdown_stops_helper_first (w : World) (s : State) (hp op : pid) :
  helper_process s = Some hp ->
  office_process s = Some op ->
  hp <> op ->
  is_running s hp ->
  is_running s op ->
  exists s',
    cleanup_processes w s = (Ok tt, s')
    /\ let evs :=
         ([ EPrint "Cleaning up processes...";
            EPoll hp; EPrint "Terminating helper process...";
            ETerminate hp; EWait hp 5 ]
          ++ (if graceful w hp then [] else [EKill hp])
          ++ [ EPoll op; EPrint "Terminating office process...";
               ETerminate op; EWait op 5 ]
          ++ (if graceful w op then [] else [EKill op]))%list in
       trace s' = (trace s ++ evs)%list
       /\ before (ETerminate hp) (ETerminate op) evs
       /\ (In (EKill hp) evs -> before (EKill hp) (ETerminate op) evs)
       /\ ~ before (ETerminate op) (ETerminate hp) evs.
Proof.
  intros Hh Ho Hne Hrh Hro.
  destruct s as [o h ax si st np sg ex tr].
  unfold is_running in *. cbn in Hh, Ho, Hrh, Hro. subst o h.
  unfold_py. repeat step_cleanup; try (exfalso; congruence);
    (eexists; split; [cbn; reflexivity|]); cbn;
    (split; [norm_state; reflexivity|]);
    (split; [auto 20 with shutdown|]);
    (split; [intros Hk; in_events; try contradiction; try congruence; auto 20 with shutdown|]);
    intros Hb; invert_before; in_events; congruence.
Qed.

Lemma shutdown_stops_helper_first_witness :
  exists s',
    cleanup_processes linux_world both_running = (Ok tt, s')
    /\ before (ETerminate 1%nat) (ETerminate 0%nat) (trace s').
Proof.
  destruct (shutdown_stops_helper_first linux_world both_running 1%nat 0%nat)
    as [s' [Hrun [Htrace [Hbefore _]]]];
    [reflexivity | reflexivity | discriminate | reflexivity | reflexivity |].
  exists s'. split; [exact Hrun|].
  rewrite Htrace. exact Hbefore.
Defined.

(** What the routine does when every handle it holds reports an exited
    child: it polls and logs. *)
Lemma cleanup_processes_exited (w : World) (s : State) :
  (forall p, owned s p -> has_exited s p) ->
  exists evs,
    cleanup_processes w s = (Ok tt, set_trace (trace s ++ evs) s)
    /\ Forall (fun e => stops e = false) evs.
Proof.
  intros Hex.
  destruct s as [o h ax si st np sg ex tr].
  unfold owned, has_exited in Hex. cbn in Hex.
  unfold_py. cbn.
  destruct h as [hp|]; destruct o as [op|]; cbn;
    try (rewrite (Hex hp) by auto; cbn);
    try (rewrite (Hex op) by auto; cbn);
    (eexists; split; [norm_state; reflexivity|]);
    repeat constructor.
Qed.

(** C3. A second shutdown that finds every handle reporting an exited
    child returns normally, as the first did, and only polls and logs:
    no process is asked to terminate and none is killed again. *)
Theorem shutdown_twice (w : World) (s : State) :
  let s1 := snd (cleanup_processes w s) in
  (forall p, owned s1 p -> has_exited s1 p) ->
  fst (cleanup_processes w s) = Ok tt
  /\ exists evs,
       cleanup_processes w s1 = (Ok tt, set_trace (trace s1 ++ evs) s1)
       /\ Forall (fun e => stops e = false) evs.
Proof.
  intros s1 Hex. split.
  - destruct (cleanup_processes_spec w s) as (evs & sg & ex & Hrun & _).
    rewrite Hrun. reflexivity.
  - apply cleanup_processes_exited. exact Hex.
Qed.

Lemma shutdown_twice_witness :
  fst (cleanup_processes obedient_world both_running) = Ok tt
  /\ exists evs,
       cleanup_processes obedient_world (snd (cleanup_processes obedient_world both_running))
       = (Ok tt, set_trace (trace (snd (cleanup_processes obedient_world both_running)) ++ evs)
                   (snd (cleanup_processes obedient_world both_running)))
       /\ Forall (fun e => stops e = false) evs.
Proof.
  apply (shutdown_twice obedient_world both_running).
  intros p [H | H]; vm_compute in H; inversion H; reflexivity.
Defined.

(** After a shutdown every owned child has exited or has been sent
    SIGKILL. Whether a killed child is found exited by the next poll,
    which is the premise of [shutdown_twice], is up to the system. *)
Lemma cleanup_processes_leaves_stopped (w : World) (s : State) :
  let s1 := snd (cleanup_processes w s) in
  forall p, owned s1 p -> stopped (trace s1) s1 p.
Proof.
  destruct (cleanup_processes_spec w s) as (evs & sg & ex & Hrun & Hown & _).
  rewrite Hrun. intros s1 p Hp. destruct (Hown p Hp) as [Hex | Hkill].
  - left. exact Hex.
  - right. cbn. apply in_or_app. right. right. exact Hkill.
Qed.

Lemma wait_after_terminate (w : World) (s : State) (p : pid) :
  is_running s p ->
  (wait_times_out w s p <-> graceful w p = false).
Proof.
  intros Hrun. unfold wait_times_out, is_running in *.
  destruct s as [o h ax si st np sg ex tr]. cbn in Hrun.
  unfold_py. cbn. rewrite Hrun, mem_pid_head. cbn.
  destruct (graceful w p); cbn; split; intros H; try reflexivity.
  - destruct H as [m H]. discriminate H.
  - discriminate H.
  - eexists. reflexivity.
Qed.

(** C4. The routine returns normally from every state. For each child
    that a handle refers to and that is running, it first asks for
    termination, then waits five seconds, and kills the child exactly
    when that wait ends in [TimeoutExpired]; the kill follows the wait.
    A child whose wait did not time out has exited when the routine
    returns. *)
Theorem shutdown_escalates_on_timeout (w : World) (s : State) :
  exists s' evs,
    cleanup_processes w s = (Ok tt, s')
    /\ trace s' = (trace s ++ evs)%list
    /\ forall p, owned s p -> is_running s p ->
         before (ETerminate p) (EWait p 5) evs
         /\ (In (EKill p) evs <-> wait_times_out w s p)
         /\ (In (EKill p) evs -> before (EWait p 5) (EKill p) evs)
         /\ (~ wait_times_out w s p -> has_exited s' p).
Proof.
  assert (Hwait : forall p, is_running s p ->
            (wait_times_out w s p <-> graceful w p = false))
    by (intros p; apply wait_after_terminate).
  destruct s as [o h ax si st np sg ex tr].
  unfold owned, is_running, has_exited in *. cbn in Hwait |- *.
  unfold_py.
  destruct h as [hp|]; destruct o as [op|]; repeat step_cleanup;
    (eexists; eexists; split; [cbn; reflexivity|]);
    (split; [norm_state; reflexivity|]);
    intros p Hown Hrun; rewrite (Hwait p Hrun); clear Hwait;
    in_events; try congruence.
  all: split; [auto 20 with shutdown|].
  all: split; [split; [intros Hin; in_events; try contradiction; congruence
                      |intros Hg; try congruence; cbn; auto 20]|].
  all: split; [intros Hin; in_events; try contradiction; try congruence;
               auto 20 with shutdown|].
  all: intros Hg; try (exfalso; apply Hg; assumption); cbn; mem_solve.
Qed.

Lemma shutdown_escalates_on_timeout_witness :
  exists s' evs,
    cleanup_processes linux_world both_running = (Ok tt, s')
    /\ trace s' = evs
    /\ In (EKill 1%nat) evs /\ ~ In (EKill 0%nat) evs.
Proof.
  destruct (shutdown_escalates_on_timeout linux_world both_running)
    as (s' & evs & Hrun & Htrace & Hall).
  exists s', evs. split; [exact Hrun|]. split; [exact Htrace|].
  destruct (Hall 1%nat (or_intror eq_refl) eq_refl) as (_ & Hhelper & _).
  destruct (Hall 0%nat (or_introl eq_refl) eq_refl) as (_ & Hoffice & _).
  split.
  - apply Hhelper. exists timeout_msg. reflexivity.
  - intros Hk. apply Hoffice in Hk. destruct Hk as [m Hm]. discriminate Hm.
Defined.

(** ** Executable discovery *)

Lemma set_trace_same (s : State) : set_trace (trace s) s = s.
Proof. destruct s; reflexivity. Qed.

Lemma set_trace_nil_r (s : State) : set_trace (trace s ++ []) s = s.
Proof. rewrite app_nil_r. apply set_trace_same. Qed.

(** The loop stops at the first candidate that exists and has looked at
    no candidate beyond it. *)
Lemma first_existing_found (w : World) (pre post : list string) (p : string) :
  (forall q, In q pre -> path_exists w q = false) ->
  path_exists w p = true ->
  forall s,
    first_existing w (pre ++ p :: post) s
    = (Ok (Some p), set_trace (trace s ++ map EExists (pre ++ [p])) s).
Proof.
  intros Hpre Hp. induction pre as [|a pre IH]; intros s.
  - cbn. unfold os_path_exists, bind, emit, modify, ret. cbn. rewrite Hp. reflexivity.
  - cbn. unfold os_path_exists, bind, emit, modify, ret. cbn.
    rewrite (Hpre a) by (left; reflexivity).
    change (first_existing w (pre ++ p :: post)
              (set_trace (trace s ++ [EExists a]) s)
            = (Ok (Some p),
               set_trace (trace s ++ EExists a :: map EExists (pre ++ [p])) s)).
    rewrite IH by (intros q Hq; apply Hpre; right; exact Hq).
    cbn. rewrite <- app_assoc. reflexivity.
Qed.

Lemma first_existing_none (w : World) (l : list string) :
  (forall q, In q l -> path_exists w q = false) ->
  forall s,
    first_existing w l s = (Ok None, set_trace (trace s ++ map EExists l) s).
Proof.
  induction l as [|a l IH]; intros Hall s.
  - cbn. rewrite set_trace_nil_r. reflexivity.
  - cbn. unfold os_path_exists, bind, emit, modify, ret. cbn.
    rewrite (Hall a) by (left; reflexivity).
    change (first_existing w l (set_trace (trace s ++ [EExists a]) s)
            = (Ok None, set_trace (trace s ++ EExists a :: map EExists l) s)).
    rewrite IH by (intros q Hq; apply Hall; right; exact Hq).
    cbn. rewrite <- app_assoc. reflexivity.
Qed.

(** C6. On Windows and on Linux the resolver returns the first candidate
    of the platform's list that exists, having checked the candidates
    before it and none after it; when no candidate exists it has checked
    them all and raises [FileNotFoundError]. *)
Theorem get_office_path_first_existing
    (w : World) (s : State) (candidates : list string) :
  (lower (platform_system w) = "windows" /\ candidates = office_paths_windows)
  \/ (lower (platform_system w) = "linux" /\ candidates = office_paths_linux) ->
  (forall pre p post,
      candidates = (pre ++ p :: post)%list ->
      (forall q, In q pre -> path_exists w q = false) ->
      path_exists w p = true ->
      get_office_path w s
      = (Ok p, set_trace (trace s ++ map EExists (pre ++ [p])) s))
  /\ ((forall q, In q candidates -> path_exists w q = false) ->
      get_office_path w s
      = (Raise (FileNotFoundError office_not_found_msg),
         set_trace (trace s ++ map EExists candidates) s)).
Proof.
  intros Hplat.
  assert (Hlist : forall A (k : list string -> M A),
             (possible_paths <-
                (if lower (platform_system w) =? "windows" then ret office_paths_windows
                 else if lower (platform_system w) =? "linux" then ret office_paths_linux
                 else raise (OSError ("Unsupported operating system: "
                                      ++ lower (platform_system w))));;
              k possible_paths) s = k candidates s).
  { intros A k. destruct Hplat as [[Hsys Hc] | [Hsys Hc]]; rewrite Hsys, Hc; reflexivity. }
  unfold get_office_path. cbv zeta. rewrite Hlist. split.
  - intros pre p post Hc Hpre Hp. subst candidates.
    unfold bind. rewrite (first_existing_found w pre post p Hpre Hp). reflexivity.
  - intros Hnone.
    unfold bind. rewrite (first_existing_none w candidates Hnone). reflexivity.
Qed.

Lemma get_office_path_first_existing_witness :
  get_office_path linux_world initial_state
  = (Ok "/opt/collaboraoffice/program/soffice",
     set_trace [ EExists "/usr/bin/coolwsd"; EExists "/usr/bin/collaboraoffice";
                 EExists "/opt/collaboraoffice/program/soffice" ] initial_state).
Proof.
  destruct (get_office_path_first_existing linux_world initial_state office_paths_linux)
    as [Hfirst _]; [right; split; reflexivity|].
  apply (Hfirst [ "/usr/bin/coolwsd"; "/usr/bin/collaboraoffice" ]
                "/opt/collaboraoffice/program/soffice"
                [ "/usr/lib/collaboraoffice/program/soffice" ]).
  - reflexivity.
  - intros q [Hq | [Hq | []]]; subst q; reflexivity.
  - reflexivity.
Defined.

(** C7. On any other platform the resolver raises [OSError] and leaves
    the state as it found it: no existence check has been made. *)
Theorem get_office_path_unsupported (w : World) (s : State) :
  lower (platform_system w) <> "windows" ->
  lower (platform_system w) <> "linux" ->
  get_office_path w s
  = (Raise (OSError ("Unsupported operating system: " ++ lower (platform_system w))), s).
Proof.
  intros Hw Hl. unfold get_office_path. cbv zeta.
  apply String.eqb_neq in Hw. apply String.eqb_neq in Hl.
  unfold bind. rewrite Hw, Hl. reflexivity.
Qed.

Lemma get_office_path_unsupported_witness :
  get_office_path darwin_world initial_state
  = (Raise (OSError "Unsupported operating system: darwin"), initial_state).
Proof.
  apply (get_office_path_unsupported darwin_world initial_state); discriminate.
Defined.

(** ** Launch *)

Lemma is_port_in_use_run (w : World) (port : Z) (s : State) :
  is_port_in_use w port s
  = (match connect_ex w (length (trace s)) port with
     | Ok code => Ok (code =? 0)%Z
     | Raise e => Raise e
     end,
     set_trace (trace s ++ [EConnect port]) s).
Proof.
  unfold is_port_in_use, bind, get, emit, modify, ret, raise. cbn.
  destruct (connect_ex w (length (trace s)) port); reflexivity.
Qed.

Lemma start_office_port_bound (w : World) (s : State) (port : Z) :
  fst (is_port_in_use w port s) = Ok true ->
  start_office w port s
  = (Ok tt,
     set_trace (trace s ++ [ EConnect port;
                             EPrint ("Office socket already running on port "
                                     ++ str_of_Z port) ]) s).
Proof.
  intros Hbound. unfold start_office, bind.
  rewrite is_port_in_use_run in Hbound |- *. cbn in Hbound.
  destruct (connect_ex w (length (trace s)) port) as [code|e]; [|discriminate Hbound].
  injection Hbound as Hcode. rewrite Hcode. cbn.
  unfold print, emit, modify. norm_state. reflexivity.
Qed.

Lemma start_helper_port_bound (w : World) (s : State) :
  fst (is_port_in_use w 8765 s) = Ok true ->
  start_helper w s
  = (Ok tt,
     set_trace (trace s ++ [ EConnect 8765;
                             EPrint "Helper script already running on port 8765" ]) s).
Proof.
  intros Hbound. unfold start_helper, bind.
  rewrite is_port_in_use_run in Hbound |- *. cbn in Hbound.
  destruct (connect_ex w (length (trace s)) 8765) as [code|e]; [|discriminate Hbound].
  injection Hbound as Hcode. rewrite Hcode. cbn.
  unfold print, emit, modify. norm_state. reflexivity.
Qed.

(** C1. When the probe reports the port bound, the launch operation
    probes, logs one line and returns: the trace gains no [EPopen] and no
    [ESleep], and nothing else of the state changes. *)
Theorem launch_skipped_when_port_bound (w : World) (s : State) :
  (forall port,
      fst (is_port_in_use w port s) = Ok true ->
      start_office w port s
      = (Ok tt,
         set_trace (trace s ++ [ EConnect port;
                                 EPrint ("Office socket already running on port "
                                         ++ str_of_Z port) ]) s))
  /\ (fst (is_port_in_use w 8765 s) = Ok true ->
      start_helper w s
      = (Ok tt,
         set_trace (trace s ++ [ EConnect 8765;
                                 EPrint "Helper script already running on port 8765" ]) s)).
Proof.
  split.
  - intros port. apply start_office_port_bound.
  - apply start_helper_port_bound.
Qed.

Lemma launch_skipped_when_port_bound_witness :
  start_office busy_world 2002 initial_state
  = (Ok tt, set_trace [ EConnect 2002;
                        EPrint "Office socket already running on port 2002" ]
              initial_state)
  /\ start_helper busy_world initial_state
     = (Ok tt, set_trace [ EConnect 8765;
                           EPrint "Helper script already running on port 8765" ]
                 initial_state).
Proof.
  destruct (launch_skipped_when_port_bound busy_world initial_state)
    as [Hoffice Hhelper].
  split.
  - apply (Hoffice 2002%Z). reflexivity.
  - apply Hhelper. reflexivity.
Defined.

(** ** Rules of the program logic *)

Lemma hoare_bind {A B : Type} (P : State -> Prop) (m : M A) (f : A -> M B)
    (Q1 : result A -> State -> Prop) (Q : result B -> State -> Prop) :
  hoare P m Q1 ->
  (forall a, hoare (Q1 (Ok a)) (f a) Q) ->
  (forall e s, Q1 (Raise e) s -> Q (Raise e) s) ->
  hoare P (bind m f) Q.
Proof.
  intros Hm Hf He s Hs. specialize (Hm s Hs). unfold bind.
  destruct (m s) as [[a | e] s1]; cbn in Hm.
  - apply Hf. exact Hm.
  - cbn. apply He. exact Hm.
Qed.

Lemma hoare_conseq {A : Type} (P P' : State -> Prop) (m : M A)
    (Q Q' : result A -> State -> Prop) :
  hoare P' m Q' ->
  (forall s, P s -> P' s) ->
  (forall r s, Q' r s -> Q r s) ->
  hoare P m Q.
Proof. intros Hm HP HQ s Hs. apply HQ, Hm, HP, Hs. Qed.

Lemma keeps_bind {A B : Type} (I : State -> Prop) (m : M A) (f : A -> M B) :
  keeps I m -> (forall a, keeps I (f a)) -> keeps I (bind m f).
Proof.
  intros Hm Hf. unfold keeps.
  apply hoare_bind with (Q1 := fun _ s => I s); auto.
Qed.

Lemma keeps_if {A : Type} (I : State -> Prop) (b : bool) (m1 m2 : M A) :
  keeps I m1 -> keeps I m2 -> keeps I (if b then m1 else m2).
Proof. destruct b; auto. Qed.

(** ** Quiet steps *)

Lemma quiet_step_refl (s : State) : quiet_step s s.
Proof.
  constructor; auto.
  exists []. split; [symmetry; apply app_nil_r|].
  split; [intros e [] | intros p [[] | []]].
Qed.

Lemma quiet_step_owned (s s' : State) (p : pid) :
  quiet_step s s' -> (owned s' p <-> owned s p).
Proof.
  intros Hq. unfold owned.
  rewrite (quiet_office _ _ Hq), (quiet_helper _ _ Hq). reflexivity.
Qed.

(** A child that has been stopped stays so: an exit is never undone and
    events are only added. *)
Lemma quiet_step_stopped (s s' : State) (evs more : list event) (p : pid) :
  quiet_step s s' -> stopped evs s p -> stopped (evs ++ more) s' p.
Proof.
  intros Hq [Hex | Hkill].
  - left. apply (quiet_exited _ _ Hq). exact Hex.
  - right. apply in_or_app. left. exact Hkill.
Qed.

Lemma quiet_step_trans (s1 s2 s3 : State) :
  quiet_step s1 s2 -> quiet_step s2 s3 -> quiet_step s1 s3.
Proof.
  intros H12 H23.
  pose proof (fun p => quiet_step_owned s1 s2 p H12) as Hown.
  destruct H12 as [Ho1 Hh1 Ha1 Hs1 Hn1 (evs1 & Ht1 & He1 & Hk1) Hx1].
  destruct H23 as [Ho2 Hh2 Ha2 Hs2 Hn2 (evs2 & Ht2 & He2 & Hk2) Hx2].
  constructor; try congruence.
  - exists (evs1 ++ evs2)%list. split; [|split].
    + rewrite Ht2, Ht1, app_assoc. reflexivity.
    + intros e He. apply in_app_or in He.
      destruct He as [He | He]; [apply He1 | apply He2]; exact He.
    + intros p Hp. rewrite !in_app_iff in Hp.
      destruct Hp as [[Hp | Hp] | [Hp | Hp]]; auto; apply Hown; auto.
  - intros p Hp. apply Hx2, Hx1, Hp.
Qed.

Lemma quiet_emit (e : event) : harmless e -> quiet (emit e).
Proof.
  intros He s. constructor; auto.
  exists [e]. split; [reflexivity|]. split.
  - intros e' [<- | []]. destruct e; auto.
  - intros p [[Hp | []] | [Hp | []]]; subst e; destruct He.
Qed.

Lemma quiet_print (msg : string) : quiet (print msg).
Proof. apply quiet_emit. exact I. Qed.

Lemma quiet_ret {A : Type} (a : A) : quiet (ret a).
Proof. intros s. apply quiet_step_refl. Qed.

Lemma quiet_raise {A : Type} (e : exn) : quiet (@raise A e).
Proof. intros s. apply quiet_step_refl. Qed.

Lemma quiet_get {A : Type} (f : State -> A) : quiet (get f).
Proof. intros s. apply quiet_step_refl. Qed.

Lemma quiet_bind {A B : Type} (m : M A) (f : A -> M B) :
  quiet m -> (forall a, quiet (f a)) -> quiet (bind m f).
Proof.
  intros Hm Hf s. specialize (Hm s). unfold bind.
  destruct (m s) as [[a | e] s1]; cbn in Hm |- *; [|exact Hm].
  eapply quiet_step_trans; [exact Hm | apply Hf].
Qed.

Lemma quiet_if {A : Type} (b : bool) (m1 m2 : M A) :
  quiet m1 -> quiet m2 -> quiet (if b then m1 else m2).
Proof. destruct b; auto. Qed.

Create HintDb quiet.
#[local] Hint Resolve quiet_print quiet_ret quiet_raise quiet_get : quiet.

Lemma quiet_cleanup_processes (w : World) : quiet (cleanup_processes w).
Proof.
  intros s.
  destruct (cleanup_processes_spec w s)
    as (evs & sg & ex & Hrun & Hown & Hex & Hstop & Hkind & _).
  rewrite Hrun. constructor; cbn; auto.
  exists (EPrint "Cleaning up processes..." :: evs). split; [reflexivity|]. split.
  - intros e [He | He]; [subst e; exact I|].
    specialize (Hkind e He). destruct e; auto.
  - intros p [[Hp | Hp] | [Hp | Hp]]; try discriminate Hp.
    + destruct (Hstop _ Hp eq_refl) as (q & [Hq | Hq] & Hoq & _);
        inversion Hq; subst; exact Hoq.
    + destruct (Hstop _ Hp eq_refl) as (q & [Hq | Hq] & Hoq & _);
        inversion Hq; subst; exact Hoq.
Qed.

(** The routine returns, and its events say what it did to each owned
    child: one that was running has been asked to terminate, and each has
    exited or has been killed. *)
Lemma cleanup_processes_result (w : World) (s : State) :
  fst (cleanup_processes w s) = Ok tt
  /\ exists evs,
       trace (snd (cleanup_processes w s))
       = (trace s ++ EPrint "Cleaning up processes..." :: evs)%list
       /\ forall p, owned s p ->
            (is_running s p -> In (ETerminate p) evs)
            /\ stopped evs (snd (cleanup_processes w s)) p.
Proof.
  destruct (cleanup_processes_spec w s)
    as (evs & sg & ex & Hrun & Hown & _ & _ & _ & Hask).
  rewrite Hrun. cbn. split; [reflexivity|].
  exists evs. split; [reflexivity|].
  intros p Hp. split; [apply Hask, Hp | exact (Hown p Hp)].
Qed.

Lemma quiet_signal_handler (w : World) : quiet (signal_handler w).
Proof.
  unfold signal_handler.
  apply quiet_bind; [apply quiet_print | intros _].
  apply quiet_bind; [apply quiet_cleanup_processes | intros _].
  apply quiet_raise.
Qed.

Lemma signal_handler_result (w : World) (s : State) :
  fst (signal_handler w s) = Raise (SystemExit 0)
  /\ exists evs,
       trace (snd (signal_handler w s))
       = (trace s
          ++ EPrint (newline ++ "Received interrupt signal. Shutting down...")
          :: EPrint "Cleaning up processes..." :: evs)%list
       /\ forall p, owned s p ->
            (is_running s p -> In (ETerminate p) evs)
            /\ stopped evs (snd (signal_handler w s)) p.
Proof.
  unfold signal_handler, bind.
  set (s0 := snd (print (newline ++ "Received interrupt signal. Shutting down...") s)).
  change (print (newline ++ "Received interrupt signal. Shutting down...") s)
    with (Ok tt, s0).
  destruct (cleanup_processes_result w s0) as (Hr & evs & Ht & Hex).
  destruct (cleanup_processes w s0) as [r s1]. cbn in Hr, Ht, Hex. subst r.
  cbn. split; [reflexivity|].
  exists evs. split.
  - rewrite Ht. subst s0. cbn. rewrite <- app_assoc. reflexivity.
  - intros p Hp. apply Hex. exact Hp.
Qed.

Lemma quiet_call_back (w : World) (cb : callback) : quiet (call_back w cb).
Proof.
  destruct cb; [apply quiet_cleanup_processes | apply quiet_signal_handler].
Qed.

Lemma run_atexit_quiet (w : World) (cbs : list callback) (s : State) :
  quiet_step s (run_atexit w cbs s).
Proof.
  revert s. induction cbs as [|cb cbs IH]; intros s; cbn.
  - apply quiet_step_refl.
  - eapply quiet_step_trans; [apply quiet_call_back | apply IH].
Qed.

Lemma quiet_os_path_exists (w : World) (path : string) : quiet (os_path_exists w path).
Proof.
  unfold os_path_exists.
  apply quiet_bind; [apply quiet_emit; exact I | intros _; apply quiet_ret].
Qed.

Lemma quiet_first_existing (w : World) (l : list string) : quiet (first_existing w l).
Proof.
  induction l as [|a l IH]; cbn; [apply quiet_ret|].
  apply quiet_bind; [apply quiet_os_path_exists | intros b].
  apply quiet_if; [apply quiet_ret | exact IH].
Qed.

Lemma quiet_get_office_path (w : World) : quiet (get_office_path w).
Proof.
  unfold get_office_path. cbv zeta.
  apply quiet_bind.
  - repeat apply quiet_if; auto with quiet.
  - intros l. apply quiet_bind; [apply quiet_first_existing | intros [p|]];
      auto with quiet.
Qed.

Lemma quiet_get_python_path (w : World) : quiet (get_python_path w).
Proof.
  unfold get_python_path. cbv zeta.
  apply quiet_if; [|apply quiet_ret].
  apply quiet_bind; [apply quiet_first_existing | intros [p|]]; apply quiet_ret.
Qed.

Lemma quiet_is_port_in_use (w : World) (port : Z) : quiet (is_port_in_use w port).
Proof.
  unfold is_port_in_use.
  apply quiet_bind; [apply quiet_get | intros t].
  apply quiet_bind; [apply quiet_emit; exact I | intros _].
  destruct (connect_ex w t port); auto with quiet.
Qed.

Lemma quiet_sys_argv_0 (w : World) : quiet (sys_argv_0 w).
Proof. unfold sys_argv_0. destruct (sys_argv w); auto with quiet. Qed.

(** ** Ownership *)

Lemma spawned_in_app (t evs : list event) (p : pid) :
  spawned_in t p -> spawned_in (t ++ evs) p.
Proof. intros [args H]. exists args. apply in_or_app. left. exact H. Qed.

Lemma quiet_step_well_owned (s s' : State) :
  quiet_step s s' -> well_owned s -> well_owned s'.
Proof.
  intros Hq Hw.
  pose proof (fun p => quiet_step_owned s s' p Hq) as Hown.
  destruct Hq as [Ho Hh Ha Hs Hn (evs & Ht & He & Hk) Hx].
  destruct Hw as [Hos Hsb Hrd Hss].
  constructor.
  - intros p Hp. rewrite Ht. apply spawned_in_app, Hos, Hown, Hp.
  - intros args p Hp. rewrite Ht in Hp. apply in_app_or in Hp.
    rewrite Hn. destruct Hp as [Hp | Hp]; [eapply Hsb; exact Hp|].
    destruct (He _ Hp).
  - intros p q. rewrite Ho, Hh. apply Hrd.
  - intros p Hp. rewrite Ht in Hp |- *. rewrite !in_app_iff in Hp.
    apply spawned_in_app.
    destruct Hp as [[Hp | Hp] | [Hp | Hp]]; auto.
Qed.

Lemma keeps_quiet {A : Type} (m : M A) : quiet m -> keeps well_owned m.
Proof. intros Hm s Hs. eapply quiet_step_well_owned; [apply Hm | exact Hs]. Qed.

Lemma well_owned_sigint (s : State) :
  well_owned s -> well_owned (set_trace (trace s ++ [ESigint]) s).
Proof.
  intros [Hos Hsb Hrd Hss]. constructor; cbn.
  - intros p Hp. apply spawned_in_app, Hos, Hp.
  - intros args p Hp. apply in_app_or in Hp.
    destruct Hp as [Hp | [Hp | []]]; [eapply Hsb; exact Hp | discriminate Hp].
  - exact Hrd.
  - intros p Hp. rewrite !in_app_iff in Hp. apply spawned_in_app.
    destruct Hp as [[Hp | [Hp | []]] | [Hp | [Hp | []]]];
      try discriminate Hp; auto.
Qed.

Lemma keeps_deliver_sigint (w : World) : keeps well_owned (deliver_sigint w).
Proof.
  unfold deliver_sigint.
  apply keeps_bind; [apply keeps_quiet, quiet_get | intros t].
  apply keeps_if; [|apply keeps_quiet, quiet_ret].
  apply keeps_bind; [intros s Hs; apply well_owned_sigint, Hs | intros _].
  apply keeps_bind; [apply keeps_quiet, quiet_get | intros [cb|]].
  - apply keeps_quiet, quiet_call_back.
  - apply keeps_quiet, quiet_raise.
Qed.

Lemma keeps_time_sleep (w : World) (secs : Z) : keeps well_owned (time_sleep w secs).
Proof.
  unfold time_sleep.
  apply keeps_bind; [apply keeps_quiet, quiet_emit; exact I | intros _].
  apply keeps_deliver_sigint.
Qed.

Lemma keeps_subprocess_run (w : World) (args : list string) :
  keeps well_owned (subprocess_run w args).
Proof.
  unfold subprocess_run.
  apply keeps_bind; [apply keeps_quiet, quiet_emit; exact I | intros _].
  destruct (run_error w args); [apply keeps_quiet, quiet_raise|].
  apply keeps_deliver_sigint.
Qed.

(** [Popen] hands out a child that no handle refers to yet. *)
Lemma Popen_fresh (w : World) (args : list string) :
  hoare well_owned (Popen w args)
    (fun r s => well_owned s
                /\ forall p, r = Ok p -> spawned_in (trace s) p /\ ~ owned s p).
Proof.
  intros s Hs. unfold Popen.
  destruct (popen_error w args) as [e|]; cbn.
  - split; [exact Hs | intros p Hp; discriminate Hp].
  - destruct Hs as [Hos Hsb Hrd Hss].
    assert (Hfresh : ~ owned s (next_pid s)).
    { intros Hown. destruct (Hos _ Hown) as [a Ha].
      apply Hsb in Ha. lia. }
    split.
    + constructor; cbn.
      * intros p Hp. apply spawned_in_app, Hos, Hp.
      * intros a p Hp. apply in_app_or in Hp.
        destruct Hp as [Hp | [Hp | []]].
        -- apply Hsb in Hp. lia.
        -- inversion Hp; subst. lia.
      * exact Hrd.
      * intros p Hp. rewrite !in_app_iff in Hp. apply spawned_in_app.
        destruct Hp as [[Hp | [Hp | []]] | [Hp | [Hp | []]]];
          try discriminate Hp; auto.
    + intros p Hp. inversion Hp; subst p. split; [|exact Hfresh].
      exists args. apply in_or_app. right. left. reflexivity.
Qed.

Lemma register_office (p : pid) :
  hoare (fun s => well_owned s /\ spawned_in (trace s) p /\ ~ owned s p)
    (modify (set_office_process (Some p))) (fun _ s => well_owned s).
Proof.
  intros s ([Hos Hsb Hrd Hss] & Hsp & Hfresh). constructor; cbn.
  - intros q [Hq | Hq]; cbn in Hq.
    + inversion Hq; subst q. exact Hsp.
    + apply Hos. right. exact Hq.
  - exact Hsb.
  - intros q1 q2 H1 H2 Heq. inversion H1; subst. apply Hfresh. right. exact H2.
  - exact Hss.
Qed.

Lemma register_helper (p : pid) :
  hoare (fun s => well_owned s /\ spawned_in (trace s) p /\ ~ owned s p)
    (modify (set_helper_process (Some p))) (fun _ s => well_owned s).
Proof.
  intros s ([Hos Hsb Hrd Hss] & Hsp & Hfresh). constructor; cbn.
  - intros q [Hq | Hq]; cbn in Hq.
    + apply Hos. left. exact Hq.
    + inversion Hq; subst q. exact Hsp.
  - exact Hsb.
  - intros q1 q2 H1 H2 Heq. inversion H2; subst. apply Hfresh. left. exact H1.
  - exact Hss.
Qed.

(** Spawn, record the handle, pause: the common tail of both launches. *)
Lemma keeps_spawn_and_register (w : World) (args : list string)
    (register : option pid -> State -> State) :
  (forall p,
      hoare (fun s => well_owned s /\ spawned_in (trace s) p /\ ~ owned s p)
        (modify (register (Some p))) (fun _ s => well_owned s)) ->
  keeps well_owned
    (p <- Popen w args;; modify (register (Some p));; time_sleep w 3).
Proof.
  intros Hreg. unfold keeps.
  eapply hoare_bind; [apply Popen_fresh | | intros e s [Hs _]; exact Hs].
  intros p.
  eapply hoare_bind with (Q1 := fun _ s => well_owned s).
  - eapply hoare_conseq; [apply (Hreg p) | | auto].
    intros s [Hs Hp]. destruct (Hp p eq_refl). auto.
  - intros _. apply keeps_time_sleep.
  - auto.
Qed.

Lemma keeps_start_office (w : World) (port : Z) :
  keeps well_owned (start_office w port).
Proof.
  unfold start_office.
  apply keeps_bind; [apply keeps_quiet, quiet_is_port_in_use | intros in_use].
  apply keeps_if; [|apply keeps_quiet, quiet_print].
  apply keeps_bind; [apply keeps_quiet, quiet_print | intros _].
  apply keeps_bind; [apply keeps_quiet, quiet_get_office_path | intros path].
  apply keeps_spawn_and_register. exact register_office.
Qed.

Lemma keeps_start_helper (w : World) : keeps well_owned (start_helper w).
Proof.
  unfold start_helper.
  apply keeps_bind; [apply keeps_quiet, quiet_is_port_in_use | intros in_use].
  apply keeps_if; [|apply keeps_quiet, quiet_print].
  apply keeps_bind; [apply keeps_quiet, quiet_print | intros _].
  apply keeps_bind; [apply keeps_quiet, quiet_sys_argv_0 | intros argv0].
  cbv zeta.
  apply keeps_bind; [apply keeps_quiet, quiet_get_python_path | intros path].
  apply keeps_spawn_and_register. exact register_helper.
Qed.

Lemma keeps_do_call (w : World) (c : call) : keeps well_owned (do_call w c).
Proof.
  destruct c; cbn.
  - apply keeps_start_office.
  - apply keeps_start_helper.
  - apply keeps_quiet, quiet_cleanup_processes.
Qed.

Lemma run_calls_well_owned (w : World) (cs : list call) (s : State) :
  well_owned s -> well_owned (run_calls w cs s).
Proof.
  revert s. induction cs as [|c cs IH]; intros s Hs; cbn; [exact Hs|].
  apply IH. apply keeps_do_call. exact Hs.
Qed.

Lemma well_owned_initial : well_owned initial_state.
Proof.
  constructor; cbn.
  - intros p [H | H]; discriminate H.
  - intros args p [].
  - intros p q H. discriminate H.
  - intros p [[] | []].
Qed.

Lemma keeps_try_except {A : Type} (I : State -> Prop) (m : M A)
    (h : exn -> option (M A)) :
  keeps I m ->
  (forall e k, h e = Some k -> keeps I k) ->
  keeps I (try_except m h).
Proof.
  intros Hm Hh s Hs. specialize (Hm s Hs). unfold try_except.
  destruct (m s) as [[a | e] s1]; cbn in Hm |- *; [exact Hm|].
  destruct (h e) as [k|] eqn:Hk; [|exact Hm].
  apply (Hh e k Hk). exact Hm.
Qed.

(** Registrations do not bear on ownership. *)
Lemma keeps_modify_registration (f : State -> State) :
  (forall s, office_process (f s) = office_process s) ->
  (forall s, helper_process (f s) = helper_process s) ->
  (forall s, next_pid (f s) = next_pid s) ->
  (forall s, trace (f s) = trace s) ->
  keeps well_owned (modify f).
Proof.
  intros Ho Hh Hn Ht s [Hos Hsb Hrd Hss]. cbn.
  constructor; unfold owned; rewrite ?Ho, ?Hh, ?Hn, ?Ht; assumption.
Qed.

Lemma keeps_install_handlers (w : World) : keeps well_owned (install_handlers w).
Proof.
  unfold install_handlers.
  apply keeps_bind; [apply keeps_modify_registration; reflexivity | intros _].
  apply keeps_bind; [apply keeps_modify_registration; reflexivity | intros _].
  apply keeps_if; [apply keeps_modify_registration; reflexivity|].
  apply keeps_quiet, quiet_ret.
Qed.

Lemma keeps_startup (w : World) : keeps well_owned (startup w).
Proof.
  unfold startup.
  apply keeps_bind; [apply keeps_start_office | intros _].
  apply keeps_bind; [apply keeps_start_helper | intros _].
  unfold start_mcp_server.
  apply keeps_bind; [apply keeps_quiet, quiet_print | intros _].
  apply keeps_subprocess_run.
Qed.

Lemma quiet_log_cleanup_exit (w : World) (msg : string) (code : Z) :
  quiet (print msg;; cleanup_processes w;; @sys_exit unit code).
Proof.
  apply quiet_bind; [apply quiet_print | intros _].
  apply quiet_bind; [apply quiet_cleanup_processes | intros _].
  apply quiet_raise.
Qed.

Lemma keeps_main (w : World) : keeps well_owned (main w).
Proof.
  unfold main.
  apply keeps_bind; [apply keeps_install_handlers | intros _].
  apply keeps_try_except; [apply keeps_startup|].
  intros e k Hk. apply keeps_quiet.
  destruct e; cbn in Hk; inversion Hk; subst k; apply quiet_log_cleanup_exit.
Qed.

Lemma script_well_owned (w : World) (s : State) :
  well_owned s -> well_owned (snd (script w s)).
Proof.
  intros Hs. unfold script.
  pose proof (keeps_main w s Hs) as Hm.
  destruct (main w s) as [r s1]. cbn in Hm |- *.
  eapply quiet_step_well_owned; [apply run_atexit_quiet | exact Hm].
Qed.

(** C9. A launch that finds its port bound leaves the handle of the role
    as it was, so a process known only by its port gets no handle. Along
    every sequence of launches and shutdowns from the initial state, and
    at the end of every run of the module as a script, each handle
    refers to a child this run has spawned, the two roles never share a
    child, and a process this run has not spawned is never asked to
    terminate and never killed. A role has a single handle, so it owns at
    most one child. *)
Theorem only_own_children_are_stopped (w : World) :
  (forall s port,
      fst (is_port_in_use w port s) = Ok true ->
      office_process (snd (start_office w port s)) = office_process s)
  /\ (forall s,
        fst (is_port_in_use w 8765 s) = Ok true ->
        helper_process (snd (start_helper w s)) = helper_process s)
  /\ forall s,
       (exists calls, s = run_calls w calls initial_state)
       \/ s = snd (script w initial_state) ->
       (forall p, owned s p -> spawned_in (trace s) p)
       /\ (forall p q,
             office_process s = Some p -> helper_process s = Some q -> p <> q)
       /\ (forall p,
             ~ spawned_in (trace s) p ->
             ~ In (ETerminate p) (trace s) /\ ~ In (EKill p) (trace s)).
Proof.
  split; [|split].
  - intros s port Hbound. rewrite (start_office_port_bound w s port Hbound).
    reflexivity.
  - intros s Hbound. rewrite (start_helper_port_bound w s Hbound). reflexivity.
  - intros s Hreach.
    assert (Hw : well_owned s).
    { destruct Hreach as [[calls ->] | ->].
      - apply run_calls_well_owned, well_owned_initial.
      - apply script_well_owned, well_owned_initial. }
    destruct Hw as [Hos Hsb Hrd Hss].
    split; [exact Hos | split; [exact Hrd|]].
    intros p Hp. split; intros Hin; apply Hp, Hss; auto.
Qed.

Lemma only_own_children_are_stopped_witness :
  office_process (snd (start_office busy_world 2002 initial_state)) = None
  /\ helper_process (snd (start_helper busy_world initial_state)) = None
  /\ ~ In (ETerminate 0%nat)
         (trace (run_calls busy_world
                   [ call_start_office 2002; call_start_helper;
                     call_cleanup_processes ] initial_state)).
Proof.
  destruct (only_own_children_are_stopped busy_world) as (Hoffice & Hhelper & Hruns).
  split; [|split].
  - apply (Hoffice initial_state 2002%Z). reflexivity.
  - apply (Hhelper initial_state). reflexivity.
  - destruct (Hruns (run_calls busy_world
                       [ call_start_office 2002; call_start_helper;
                         call_cleanup_processes ] initial_state))
      as (_ & _ & Hstops); [left; eexists; reflexivity|].
    apply (Hstops 0%nat).
    intros [args Hin]. vm_compute in Hin.
    repeat (destruct Hin as [Hin | Hin]; [discriminate Hin|]). exact Hin.
Defined.

(** ** Interrupts *)

Lemma answered_armed {A : Type} (a : A) (s : State) : answered (Ok a) s -> armed s.
Proof.
  intros [Hh [Hn | [Hr _]]]; [split; assumption | discriminate Hr].
Qed.

Lemma answered_raise {A B : Type} (e : exn) (s : State) :
  @answered A (Raise e) s -> @answered B (Raise e) s.
Proof.
  intros [Hh [Hn | [Hr Hi]]]; split; auto.
  right. split; [congruence | exact Hi].
Qed.

Lemma interruptible_bind {A B : Type} (m : M A) (f : A -> M B) :
  interruptible m -> (forall a, interruptible (f a)) -> interruptible (bind m f).
Proof.
  intros Hm Hf. unfold interruptible.
  eapply hoare_bind; [exact Hm | | intros e s; apply answered_raise].
  intros a. eapply hoare_conseq; [apply (Hf a) | apply answered_armed | auto].
Qed.

Lemma interruptible_if {A : Type} (b : bool) (m1 m2 : M A) :
  interruptible m1 -> interruptible m2 -> interruptible (if b then m1 else m2).
Proof. destruct b; auto. Qed.

Lemma quiet_step_sigint_free (s s' : State) :
  quiet_step s s' -> ~ In ESigint (trace s) -> ~ In ESigint (trace s').
Proof.
  intros [_ _ _ _ _ (evs & Ht & He & _) _] Hn Hin.
  rewrite Ht in Hin. apply in_app_or in Hin.
  destruct Hin as [Hin | Hin]; [exact (Hn Hin) | exact (He _ Hin)].
Qed.

Lemma interruptible_quiet {A : Type} (m : M A) : quiet m -> interruptible m.
Proof.
  intros Hm s [Hh Hn]. specialize (Hm s). split.
  - rewrite (quiet_sigint _ _ Hm). exact Hh.
  - left. eapply quiet_step_sigint_free; eassumption.
Qed.

(** A change of state that is invisible to the interrupt discipline. *)
Lemma interruptible_modify (f : State -> State) :
  (forall s, sigint_handler (f s) = sigint_handler s) ->
  (forall s, trace (f s) = trace s) ->
  interruptible (modify f).
Proof.
  intros Hh Ht s [Hs Hn]. cbn. split; [rewrite Hh; exact Hs|].
  left. rewrite Ht. exact Hn.
Qed.

Lemma interruptible_Popen (w : World) (args : list string) :
  interruptible (Popen w args).
Proof.
  intros s [Hs Hn]. unfold Popen.
  destruct (popen_error w args) as [e|]; cbn.
  - split; [exact Hs | left; exact Hn].
  - split; [exact Hs|]. left. intros Hin. apply in_app_or in Hin.
    destruct Hin as [Hin | [Hin | []]]; [exact (Hn Hin) | discriminate Hin].
Qed.

Lemma deliver_sigint_run (w : World) (s : State) :
  deliver_sigint w s
  = if sigint w (length (trace s)) then
      match sigint_handler s with
      | Some cb => call_back w cb (set_trace (trace s ++ [ESigint]) s)
      | None => (Raise KeyboardInterrupt, set_trace (trace s ++ [ESigint]) s)
      end
    else (Ok tt, s).
Proof.
  unfold deliver_sigint, bind, get, emit, modify, ret, raise. cbn.
  destruct (sigint w (length (trace s))); [|reflexivity].
  destruct (sigint_handler s); reflexivity.
Qed.

(** The heart of the interrupt path: with the handler of the module
    installed, a SIGINT ends the blocking call in [SystemExit(0)], after
    the shutdown routine has run. *)
Lemma interruptible_deliver_sigint (w : World) : interruptible (deliver_sigint w).
Proof.
  intros s [Hs Hn]. rewrite deliver_sigint_run.
  destruct (sigint w (length (trace s))); [|split; [exact Hs | left; exact Hn]].
  rewrite Hs.
  set (s1 := set_trace (trace s ++ [ESigint]) s).
  change (call_back w cb_signal_handler s1) with (signal_handler w s1).
  destruct (signal_handler_result w s1) as (Hr & evs & Ht & Hex).
  pose proof (quiet_signal_handler w s1) as Hq.
  split.
  - rewrite (quiet_sigint _ _ Hq). exact Hs.
  - right. split; [exact Hr|].
    exists (trace s), evs. split.
    + rewrite Ht. subst s1. cbn. rewrite <- app_assoc. reflexivity.
    + intros p Hp. apply Hex. apply (quiet_step_owned _ _ p Hq). exact Hp.
Qed.

Lemma interruptible_time_sleep (w : World) (secs : Z) :
  interruptible (time_sleep w secs).
Proof.
  unfold time_sleep.
  apply interruptible_bind;
    [apply interruptible_quiet, quiet_emit; exact I | intros _].
  apply interruptible_deliver_sigint.
Qed.

Lemma interruptible_subprocess_run (w : World) (args : list string) :
  interruptible (subprocess_run w args).
Proof.
  unfold subprocess_run.
  apply interruptible_bind;
    [apply interruptible_quiet, quiet_emit; exact I | intros _].
  destruct (run_error w args); [apply interruptible_quiet, quiet_raise|].
  apply interruptible_deliver_sigint.
Qed.

Lemma interruptible_start_office (w : World) (port : Z) :
  interruptible (start_office w port).
Proof.
  unfold start_office.
  apply interruptible_bind;
    [apply interruptible_quiet, quiet_is_port_in_use | intros in_use].
  apply interruptible_if; [|apply interruptible_quiet, quiet_print].
  apply interruptible_bind; [apply interruptible_quiet, quiet_print | intros _].
  apply interruptible_bind;
    [apply interruptible_quiet, quiet_get_office_path | intros path].
  apply interruptible_bind; [apply interruptible_Popen | intros p].
  apply interruptible_bind;
    [apply interruptible_modify; reflexivity | intros _].
  apply interruptible_time_sleep.
Qed.

Lemma interruptible_start_helper (w : World) : interruptible (start_helper w).
Proof.
  unfold start_helper.
  apply interruptible_bind;
    [apply interruptible_quiet, quiet_is_port_in_use | intros in_use].
  apply interruptible_if; [|apply interruptible_quiet, quiet_print].
  apply interruptible_bind; [apply interruptible_quiet, quiet_print | intros _].
  apply interruptible_bind;
    [apply interruptible_quiet, quiet_sys_argv_0 | intros argv0].
  cbv zeta.
  apply interruptible_bind;
    [apply interruptible_quiet, quiet_get_python_path | intros path].
  apply interruptible_bind; [apply interruptible_Popen | intros p].
  apply interruptible_bind;
    [apply interruptible_modify; reflexivity | intros _].
  apply interruptible_time_sleep.
Qed.

Lemma interruptible_start_mcp_server (w : World) :
  interruptible (start_mcp_server w).
Proof.
  unfold start_mcp_server.
  apply interruptible_bind; [apply interruptible_quiet, quiet_print | intros _].
  apply interruptible_subprocess_run.
Qed.

Lemma interruptible_startup (w : World) : interruptible (startup w).
Proof.
  unfold startup.
  apply interruptible_bind; [apply interruptible_start_office | intros _].
  apply interruptible_bind; [apply interruptible_start_helper | intros _].
  apply interruptible_start_mcp_server.
Qed.

Lemma quiet_step_interrupted (s s' : State) :
  quiet_step s s' -> interrupted s -> interrupted s'.
Proof.
  intros Hq (l1 & l2 & Ht & Hex).
  destruct (quiet_trace _ _ Hq) as (evs & Ht' & _).
  exists l1, (l2 ++ evs)%list. split.
  - rewrite Ht', Ht, <- app_assoc. reflexivity.
  - intros p Hp. apply (quiet_step_stopped s s' l2 evs p Hq), Hex.
    apply (quiet_step_owned _ _ p Hq). exact Hp.
Qed.

(** The registrations always succeed; they install the handler and leave
    handles and trace alone. *)
Lemma install_handlers_run (w : World) (s : State) :
  fst (install_handlers w s) = Ok tt
  /\ sigint_handler (snd (install_handlers w s)) = Some cb_signal_handler
  /\ trace (snd (install_handlers w s)) = trace s
  /\ office_process (snd (install_handlers w s)) = office_process s
  /\ helper_process (snd (install_handlers w s)) = helper_process s
  /\ exited (snd (install_handlers w s)) = exited s.
Proof.
  unfold install_handlers, bind, modify, ret. cbn.
  destruct (negb (platform_system w =? "Windows")); cbn; auto 10.
Qed.

(** ** The top level *)

(** Log, shut down, exit: what the two [except] clauses of [main] and
    the signal handler have in common. *)
Lemma log_cleanup_exit (w : World) (msg : string) (code : Z) (s : State) :
  let out := (print msg;; cleanup_processes w;; @sys_exit unit code) s in
  fst out = Raise (SystemExit code)
  /\ quiet_step s (snd out)
  /\ exists evs,
       trace (snd out)
       = (trace s ++ EPrint msg :: EPrint "Cleaning up processes..." :: evs)%list
       /\ forall p, owned s p ->
            (is_running s p -> In (ETerminate p) evs)
            /\ stopped evs (snd out) p.
Proof.
  assert (Hq : quiet (print msg;; cleanup_processes w;; @sys_exit unit code)).
  { apply quiet_bind; [apply quiet_print | intros _].
    apply quiet_bind; [apply quiet_cleanup_processes | intros _].
    apply quiet_raise. }
  specialize (Hq s). revert Hq. unfold bind.
  set (s0 := snd (print msg s)).
  change (print msg s) with (Ok tt, s0).
  destruct (cleanup_processes_result w s0) as (Hr & evs & Ht & Hex).
  destruct (cleanup_processes w s0) as [r s1]. cbn in Hr, Ht, Hex. subst r.
  cbn. intros Hq. split; [reflexivity|]. split; [exact Hq|].
  exists evs. split.
  - rewrite Ht. subst s0. cbn. rewrite <- app_assoc. reflexivity.
  - intros p Hp. apply Hex. exact Hp.
Qed.

(** C5. Let the three start calls run after the registrations of [main].
    If they raise an instance of [Exception], the error is logged, the
    shutdown routine runs, and the process exits with status 1. If they
    raise [KeyboardInterrupt], the interrupt is logged, the shutdown
    routine runs, and the status is 0. If SIGINT is delivered during the
    run, the handler logs it, the shutdown routine runs, and the status
    is 0. Each time the routine has asked every running child that the
    run owned to terminate, and at the end each owned child has exited
    or has been sent SIGKILL. *)
Theorem main_exit_paths (w : World) (s : State) :
  let s1 := snd (install_handlers w s) in
  let r := fst (startup w s1) in
  let s2 := snd (startup w s1) in
  let code := fst (script w s) in
  let final := snd (script w s) in
  (forall e,
      r = Raise e -> is_Exception e = true ->
      code = 1%Z
      /\ cleaned_up ("An error occurred: " ++ exn_str e) s2 final)
  /\ (r = Raise KeyboardInterrupt ->
      code = 0%Z
      /\ cleaned_up (newline ++ "Received keyboard interrupt. Shutting down...")
           s2 final)
  /\ (~ In ESigint (trace s) -> In ESigint (trace final) ->
      code = 0%Z /\ interrupted final).
Proof.
  intros s1 r s2 code final.
  destruct (install_handlers_run w s) as (Hi & Hh & Ht & _).
  fold s1 in Hh, Ht.
  assert (Hmain : main w s
                  = try_except (startup w)
                      (fun e =>
                         match e with
                         | KeyboardInterrupt =>
                             Some (print (newline ++ "Received keyboard interrupt. Shutting down...");;
                                   cleanup_processes w;; sys_exit 0)
                         | _ =>
                             if is_Exception e then
                               Some (print ("An error occurred: " ++ exn_str e);;
                                     cleanup_processes w;; sys_exit 1)
                             else None
                         end) s1).
  { unfold main. unfold bind at 1. subst s1.
    destruct (install_handlers w s) as [ri si]. cbn in Hi. subst ri. reflexivity. }
  (* what follows a caught exception *)
  assert (Hcaught : forall msg c,
             main w s = (print msg;; cleanup_processes w;; sys_exit c) s2 ->
             code = c /\ cleaned_up msg s2 final).
  { intros msg c Hm. subst code final. unfold script. rewrite Hm.
    destruct (log_cleanup_exit w msg c s2) as (Hr & Hq & evs & Hte & Hex).
    destruct ((print msg;; cleanup_processes w;; sys_exit c) s2) as [r3 s3].
    cbn in Hr, Hq, Hte, Hex. subst r3. cbn.
    pose proof (run_atexit_quiet w (rev (atexit_handlers s3)) s3) as Hqa.
    split; [reflexivity|].
    destruct (quiet_trace _ _ Hqa) as (evs' & Hte' & _).
    exists (evs ++ evs')%list. split.
    - rewrite Hte', Hte, <- app_assoc. reflexivity.
    - intros p Hp. destruct (Hex p Hp) as [Hask Hstop]. split.
      + intros Hrun. apply in_or_app. left. apply Hask, Hrun.
      + apply (quiet_step_stopped _ _ evs evs' p Hqa). exact Hstop. }
  split; [|split].
  - intros e Hr He. apply Hcaught. rewrite Hmain. unfold try_except.
    subst r s2. destruct (startup w s1) as [r0 s0]. cbn in Hr. subst r0.
    destruct e; cbn in He |- *; try discriminate He; reflexivity.
  - intros Hr. apply Hcaught. rewrite Hmain. unfold try_except.
    subst r s2. destruct (startup w s1) as [r0 s0]. cbn in Hr. subst r0.
    reflexivity.
  - intros Hfree Hin.
    assert (Harmed : armed s1) by (split; [exact Hh | rewrite Ht; exact Hfree]).
    pose proof (interruptible_startup w s1 Harmed) as [Hh2 Hans].
    fold r s2 in Hh2, Hans.
    destruct Hans as [Hnone | [Hr Hint]].
    + exfalso. revert Hin. subst final. unfold script. rewrite Hmain.
      assert (Hq : quiet_step s2 (snd (try_except (startup w)
                      (fun e =>
                         match e with
                         | KeyboardInterrupt =>
                             Some (print (newline ++ "Received keyboard interrupt. Shutting down...");;
                                   cleanup_processes w;; sys_exit 0)
                         | _ =>
                             if is_Exception e then
                               Some (print ("An error occurred: " ++ exn_str e);;
                                     cleanup_processes w;; sys_exit 1)
                             else None
                         end) s1))).
      { unfold try_except. subst s2. destruct (startup w s1) as [[a | e] s0]; cbn.
        - apply quiet_step_refl.
        - destruct e; cbn; try apply quiet_step_refl; apply log_cleanup_exit. }
      destruct (try_except _ _ s1) as [r3 s3]. cbn in Hq |- *.
      apply (quiet_step_sigint_free s2); [|exact Hnone].
      eapply quiet_step_trans; [exact Hq | apply run_atexit_quiet].
    + subst code final. unfold script. rewrite Hmain. unfold try_except.
      subst r s2. destruct (startup w s1) as [r0 s0]. cbn in Hr, Hint. subst r0.
      cbn. split; [reflexivity|].
      eapply quiet_step_interrupted; [apply run_atexit_quiet | exact Hint].
Qed.

Lemma main_exit_paths_witness :
  (owned (snd (startup (server_fails_world (OSError "Permission denied"))
                 (snd (install_handlers (server_fails_world (OSError "Permission denied"))
                         initial_state)))) 1%nat
   /\ fst (script (server_fails_world (OSError "Permission denied")) initial_state) = 1%Z
   /\ cleaned_up "An error occurred: Permission denied"
        (snd (startup (server_fails_world (OSError "Permission denied"))
                (snd (install_handlers (server_fails_world (OSError "Permission denied"))
                        initial_state))))
        (snd (script (server_fails_world (OSError "Permission denied")) initial_state)))
  /\ (owned (snd (startup (server_fails_world KeyboardInterrupt)
                    (snd (install_handlers (server_fails_world KeyboardInterrupt)
                            initial_state)))) 1%nat
      /\ fst (script (server_fails_world KeyboardInterrupt) initial_state) = 0%Z
      /\ cleaned_up (newline ++ "Received keyboard interrupt. Shutting down...")
           (snd (startup (server_fails_world KeyboardInterrupt)
                   (snd (install_handlers (server_fails_world KeyboardInterrupt)
                           initial_state))))
           (snd (script (server_fails_world KeyboardInterrupt) initial_state)))
  /\ (owned (snd (script sigint_world initial_state)) 0%nat
      /\ fst (script sigint_world initial_state) = 0%Z
      /\ interrupted (snd (script sigint_world initial_state))).
Proof.
  split; [|split]; (split; [first [left; reflexivity | right; reflexivity]|]).
  - destruct (main_exit_paths (server_fails_world (OSError "Permission denied"))
                initial_state) as (Hraise & _ & _).
    apply (Hraise (OSError "Permission denied")); reflexivity.
  - destruct (main_exit_paths (server_fails_world KeyboardInterrupt) initial_state)
      as (_ & Hkeyboard & _).
    apply Hkeyboard. reflexivity.
  - destruct (main_exit_paths sigint_world initial_state) as (_ & _ & Hsignal).
    apply Hsignal; [intros [] | vm_compute; auto 20].
Defined.

(** ** The helper script *)

(** C8. The helper script is looked up beside [sys.argv[0]], not beside
    the module. Imported by a program started as [/usr/local/bin/pytest],
    with [main.py] installed in [/opt/smolpc], [start_helper] launches
    [/usr/local/bin/helper.py] and not [/opt/smolpc/helper.py], while
    [start_mcp_server], which goes by [__file__], runs the server of
    [/opt/smolpc]. Imported by [python -c] it launches the relative path
    [helper.py], and the file this denotes changes with the working
    directory of the caller. *)
Theorem helper_script_follows_argv0 :
  trace (snd (start_helper imported_world initial_state))
  = [ EConnect 8765; EPrint "Starting Office helper...";
      EPopen ["/usr/bin/python3"; "/usr/local/bin/helper.py"] 0%nat; ESleep 3 ]
  /\ os_path_join imported_world
       (os_path_dirname imported_world (module_file imported_world)) "helper.py"
     = "/opt/smolpc/helper.py"
  /\ trace (snd (start_mcp_server imported_world initial_state))
     = [ EPrint "Starting Office MCP server...";
         ERun ["/usr/bin/python3"; "/opt/smolpc/libre.py"] ]
  /\ (forall d,
        trace (snd (start_helper (with_cwd inline_world d) initial_state))
        = [ EConnect 8765; EPrint "Starting Office helper...";
            EPopen ["/usr/bin/python3"; "helper.py"] 0%nat; ESleep 3 ])
  /\ denotes (cwd (with_cwd inline_world "/home/user")) "helper.py"
     = "/home/user/helper.py"
  /\ denotes (cwd (with_cwd inline_world "/tmp")) "helper.py" = "/tmp/helper.py".
Proof.
  split; [vm_compute; reflexivity|].
  split; [vm_compute; reflexivity|].
  split; [vm_compute; reflexivity|].
  split; [intros d; vm_compute; reflexivity|].
  split; vm_compute; reflexivity.
Qed.

(** * Further properties of the module *)

#[local] Arguments time_sleep : simpl never.

(** ** Calm steps *)

Lemma quiet_step_calm (s s' : State) : quiet_step s s' -> calm_step s s'.
Proof.
  intros [Ho Hh Ha Hs Hn (evs & Ht & He & Hk) Hx].
  constructor; auto.
  exists evs. split; [exact Ht|]. split; [|exact Hk].
  intros args p Hin. exact (He _ Hin).
Qed.

Lemma calm_step_refl (s : State) : calm_step s s.
Proof. apply quiet_step_calm, quiet_step_refl. Qed.

Lemma calm_step_owned (s s' : State) (p : pid) :
  calm_step s s' -> (owned s' p <-> owned s p).
Proof.
  intros Hc. unfold owned.
  rewrite (calm_office _ _ Hc), (calm_helper _ _ Hc). reflexivity.
Qed.

Lemma calm_step_trans (s1 s2 s3 : State) :
  calm_step s1 s2 -> calm_step s2 s3 -> calm_step s1 s3.
Proof.
  intros H12 H23.
  pose proof (fun p => calm_step_owned s1 s2 p H12) as Hown.
  destruct H12 as [Ho1 Hh1 Ha1 Hs1 Hn1 (evs1 & Ht1 & He1 & Hk1) Hx1].
  destruct H23 as [Ho2 Hh2 Ha2 Hs2 Hn2 (evs2 & Ht2 & He2 & Hk2) Hx2].
  constructor; try congruence.
  - exists (evs1 ++ evs2)%list. split; [|split].
    + rewrite Ht2, Ht1, app_assoc. reflexivity.
    + intros args p Hin. apply in_app_or in Hin.
      destruct Hin as [Hin | Hin]; [exact (He1 _ _ Hin) | exact (He2 _ _ Hin)].
    + intros p Hp. rewrite !in_app_iff in Hp.
      destruct Hp as [[Hp | Hp] | [Hp | Hp]]; auto; apply Hown; auto.
  - intros p Hp. apply Hx2, Hx1, Hp.
Qed.

Lemma calm_quiet {A : Type} (m : M A) : quiet m -> calm m.
Proof. intros Hm s. apply quiet_step_calm, Hm. Qed.

Lemma calm_bind {A B : Type} (m : M A) (f : A -> M B) :
  calm m -> (forall a, calm (f a)) -> calm (bind m f).
Proof.
  intros Hm Hf s. specialize (Hm s). unfold bind.
  destruct (m s) as [[a | e] s1]; cbn in Hm |- *; [|exact Hm].
  eapply calm_step_trans; [exact Hm | apply Hf].
Qed.

Lemma calm_deliver_sigint (w : World) : calm (deliver_sigint w).
Proof.
  intros s. rewrite deliver_sigint_run.
  destruct (sigint w (length (trace s))); [|apply calm_step_refl].
  assert (Hsig : calm_step s (set_trace (trace s ++ [ESigint]) s)).
  { constructor; auto.
    exists [ESigint]. split; [reflexivity|]. split.
    - intros args p [Hin | []]. discriminate Hin.
    - intros p [[Hin | []] | [Hin | []]]; discriminate Hin. }
  destruct (sigint_handler s) as [cb|]; [|exact Hsig].
  eapply calm_step_trans; [exact Hsig|].
  apply quiet_step_calm, quiet_call_back.
Qed.

Lemma calm_time_sleep (w : World) (secs : Z) : calm (time_sleep w secs).
Proof.
  unfold time_sleep.
  apply calm_bind; [apply calm_quiet, quiet_emit; exact I | intros _].
  apply calm_deliver_sigint.
Qed.

Lemma calm_subprocess_run (w : World) (args : list string) :
  calm (subprocess_run w args).
Proof.
  unfold subprocess_run.
  apply calm_bind; [apply calm_quiet, quiet_emit; exact I | intros _].
  destruct (run_error w args); [apply calm_quiet, quiet_raise|].
  apply calm_deliver_sigint.
Qed.

Lemma calm_start_mcp_server (w : World) : calm (start_mcp_server w).
Proof.
  unfold start_mcp_server.
  apply calm_bind; [apply calm_quiet, quiet_print | intros _].
  apply calm_subprocess_run.
Qed.

(** ** The interpreter of the helper *)

(** Either no candidate exists, or there is a first one that does. *)
Lemma first_split (present : string -> bool) (l : list string) :
  (forall q, In q l -> present q = false)
  \/ exists pre p post,
       l = (pre ++ p :: post)%list
       /\ (forall q, In q pre -> present q = false)
       /\ present p = true.
Proof.
  induction l as [|a l IH]; [left; intros q []|].
  destruct (present a) eqn:Ha.
  - right. exists [], a, l. split; [reflexivity|]. split; [intros q [] | exact Ha].
  - destruct IH as [Hnone | (pre & p & post & Hl & Hpre & Hp)].
    + left. intros q [<- | Hq]; [exact Ha | apply Hnone, Hq].
    + right. exists (a :: pre), p, post. subst l. split; [reflexivity|].
      split; [|exact Hp]. intros q [<- | Hq]; [exact Ha | apply Hpre, Hq].
Qed.

(** What the loop over the candidates does to the state, and what it can
    return. *)
Lemma first_existing_effect (w : World) (l : list string) (s : State) :
  exists checked,
    snd (first_existing w l s) = set_trace (trace s ++ map EExists checked) s
    /\ ((fst (first_existing w l s) = Ok None
         /\ forall q, In q l -> path_exists w q = false)
        \/ exists p,
             fst (first_existing w l s) = Ok (Some p)
             /\ In p l /\ path_exists w p = true).
Proof.
  destruct (first_split (path_exists w) l)
    as [Hnone | (pre & p & post & Hl & Hpre & Hp)].
  - exists l. rewrite (first_existing_none w l Hnone). cbn. auto.
  - exists (pre ++ [p])%list. subst l.
    rewrite (first_existing_found w pre post p Hpre Hp). cbn.
    split; [reflexivity|]. right. exists p. split; [reflexivity|].
    split; [apply in_or_app; right; left; reflexivity | exact Hp].
Qed.

(** X1. [get_python_path] never raises. Off Windows it answers
    [sys.executable] without looking at the file system. On Windows it
    answers the first bundled interpreter that exists, having checked
    none after it, and falls back to [sys.executable] when none does. *)
Theorem get_python_path_falls_back (w : World) (s : State) :
  (lower (platform_system w) <> "windows" ->
   get_python_path w s = (Ok (sys_executable w), s))
  /\ (lower (platform_system w) = "windows" ->
      (forall pre p post,
          python_paths_windows = (pre ++ p :: post)%list ->
          (forall q, In q pre -> path_exists w q = false) ->
          path_exists w p = true ->
          get_python_path w s
          = (Ok p, set_trace (trace s ++ map EExists (pre ++ [p])) s))
      /\ ((forall q, In q python_paths_windows -> path_exists w q = false) ->
          get_python_path w s
          = (Ok (sys_executable w),
             set_trace (trace s ++ map EExists python_paths_windows) s)))
  /\ exists python_path, fst (get_python_path w s) = Ok python_path.
Proof.
  split; [|split].
  - intros Hsys. unfold get_python_path. cbv zeta.
    apply String.eqb_neq in Hsys. rewrite Hsys. reflexivity.
  - intros Hsys.
    assert (E : (lower (platform_system w) =? "windows") = true)
      by (rewrite Hsys; reflexivity).
    unfold get_python_path. cbv zeta. rewrite E. unfold bind. split.
    + intros pre p post Hl Hpre Hp. rewrite Hl.
      rewrite (first_existing_found w pre post p Hpre Hp). reflexivity.
    + intros Hnone.
      rewrite (first_existing_none w python_paths_windows Hnone). reflexivity.
  - unfold get_python_path. cbv zeta.
    destruct (lower (platform_system w) =? "windows"); [|eexists; reflexivity].
    unfold bind.
    destruct (first_existing_effect w python_paths_windows s)
      as (checked & _ & [[Hr _] | (p & Hr & _)]);
      destruct (first_existing w python_paths_windows s) as [r s0];
      cbn in Hr; subst r; eexists; reflexivity.
Qed.

Lemma get_python_path_falls_back_witness :
  get_python_path linux_world initial_state = (Ok "/usr/bin/python3", initial_state)
  /\ fst (get_python_path windows_world initial_state)
     = Ok "C:\Program Files (x86)\Collabora Office\program\python.exe"
  /\ fst (get_python_path bare_windows_world initial_state) = Ok "/usr/bin/python3".
Proof.
  split; [|split].
  - destruct (get_python_path_falls_back linux_world initial_state) as (Hother & _ & _).
    apply Hother. discriminate.
  - destruct (get_python_path_falls_back windows_world initial_state)
      as (_ & Hwindows & _).
    destruct (Hwindows eq_refl) as [Hfirst _].
    rewrite (Hfirst [ "C:\Program Files\Collabora Office\program\python.exe" ]
                    "C:\Program Files (x86)\Collabora Office\program\python.exe"
                    [ "C:\Program Files\LibreOffice\program\python.exe" ]);
      [reflexivity | reflexivity | | reflexivity].
    intros q [<- | []]. reflexivity.
  - destruct (get_python_path_falls_back bare_windows_world initial_state)
      as (_ & Hwindows & _).
    destruct (Hwindows eq_refl) as [_ Hnone].
    rewrite Hnone; [reflexivity|]. intros q _. reflexivity.
Defined.

(** ** Launch, in full *)

Lemma not_in_map_exists_popen (l : list string) (args : list string) (p : pid) :
  ~ In (EPopen args p) (map EExists l).
Proof. intros H. apply in_map_iff in H. destruct H as (x & Hx & _). discriminate Hx. Qed.

Lemma not_in_map_exists_sleep (l : list string) (secs : Z) :
  ~ In (ESleep secs) (map EExists l).
Proof. intros H. apply in_map_iff in H. destruct H as (x & Hx & _). discriminate Hx. Qed.

Lemma get_office_path_effect (w : World) (s : State) :
  exists checked,
    snd (get_office_path w s) = set_trace (trace s ++ map EExists checked) s
    /\ forall path, fst (get_office_path w s) = Ok path -> office_executable w path.
Proof.
  unfold get_office_path, office_executable. cbv zeta. unfold bind.
  destruct (lower (platform_system w) =? "windows").
  - cbn [ret].
    destruct (first_existing_effect w office_paths_windows s)
      as (checked & Hs & [[Hr _] | (p & Hr & Hin & Hp)]);
      destruct (first_existing w office_paths_windows s) as [r s0];
      cbn in Hr, Hs; subst r s0; exists checked; cbn; (split; [reflexivity|]);
      intros path Hpath; inversion Hpath; subst; auto.
  - destruct (lower (platform_system w) =? "linux").
    + cbn [ret].
      destruct (first_existing_effect w office_paths_linux s)
        as (checked & Hs & [[Hr _] | (p & Hr & Hin & Hp)]);
        destruct (first_existing w office_paths_linux s) as [r s0];
        cbn in Hr, Hs; subst r s0; exists checked; cbn; (split; [reflexivity|]);
        intros path Hpath; inversion Hpath; subst; auto.
    + exists []. cbn. rewrite set_trace_nil_r. split; [reflexivity|].
      intros path Hpath. discriminate Hpath.
Qed.

Lemma get_python_path_effect (w : World) (s : State) :
  exists checked python_path,
    get_python_path w s
    = (Ok python_path, set_trace (trace s ++ map EExists checked) s).
Proof.
  unfold get_python_path. cbv zeta.
  destruct (lower (platform_system w) =? "windows").
  - unfold bind.
    destruct (first_existing_effect w python_paths_windows s)
      as (checked & Hs & [[Hr _] | (p & Hr & _)]);
      destruct (first_existing w python_paths_windows s) as [r s0];
      cbn in Hr, Hs; subst r s0; exists checked; eexists; reflexivity.
  - exists [], (sys_executable w). cbn. rewrite set_trace_nil_r. reflexivity.
Qed.

(** The pause after a spawn: the sleep is logged first, and whatever a
    signal sets off afterwards spawns nothing and changes no handle. *)
Lemma pause_effect (w : World) (s : State) :
  calm_step s (snd (time_sleep w 3 s))
  /\ exists after_it,
       trace (snd (time_sleep w 3 s)) = (trace s ++ ESleep 3 :: after_it)%list
       /\ forall a p, ~ In (EPopen a p) after_it.
Proof.
  split; [apply calm_time_sleep|].
  set (s0 := set_trace (trace s ++ [ESleep 3]) s).
  change (time_sleep w 3 s) with (deliver_sigint w s0).
  destruct (calm_trace _ _ (calm_deliver_sigint w s0)) as (evs & Ht & He & _).
  exists evs. split; [|exact He].
  rewrite Ht. subst s0. cbn. rewrite <- app_assoc. reflexivity.
Qed.

(** Spawn, record the handle, pause: what it does to the trace and to
    the counter of children, for either role. *)
Lemma spawn_register_pause_effect (w : World) (args : list string)
    (register : option pid -> State -> State) (s : State) :
  (forall h s0, trace (register h s0) = trace s0) ->
  (forall h s0, next_pid (register h s0) = next_pid s0) ->
  let out := (p <- Popen w args;; modify (register (Some p));; time_sleep w 3) s in
  (popen_error w args <> None /\ snd out = s)
  \/ (popen_error w args = None
      /\ calm_step
           (register (Some (next_pid s))
              (set_trace (trace s ++ [EPopen args (next_pid s)])
                 (set_next_pid (S (next_pid s)) s)))
           (snd out)
      /\ exists after_it,
           trace (snd out)
           = (trace s ++ EPopen args (next_pid s) :: ESleep 3 :: after_it)%list
           /\ forall a p, ~ In (EPopen a p) after_it).
Proof.
  intros Htr Hnp out. subst out.
  destruct (popen_error w args) as [e|] eqn:Hpe.
  - left. split; [discriminate|].
    unfold bind at 1. unfold Popen. rewrite Hpe. reflexivity.
  - right. split; [reflexivity|].
    set (s4 := register (Some (next_pid s))
                 (set_trace (trace s ++ [EPopen args (next_pid s)])
                    (set_next_pid (S (next_pid s)) s))).
    assert (Hrun : (p <- Popen w args;; modify (register (Some p));; time_sleep w 3) s
                   = time_sleep w 3 s4).
    { unfold bind at 1. unfold Popen. rewrite Hpe. reflexivity. }
    rewrite Hrun.
    destruct (pause_effect w s4) as (Hcalm & after_it & Ht & He).
    split; [exact Hcalm|].
    exists after_it. split; [|exact He].
    rewrite Ht. subst s4. rewrite Htr. cbn. rewrite <- app_assoc. reflexivity.
Qed.

Ltac frame_same := do 3 (split; [reflexivity|]); split; [intros ? Hp; exact Hp|].

Lemma start_office_effect (w : World) (port : Z) (s : State) :
  let s' := snd (start_office w port s) in
  helper_process s' = helper_process s
  /\ atexit_handlers s' = atexit_handlers s
  /\ sigint_handler s' = sigint_handler s
  /\ (forall p, has_exited s p -> has_exited s' p)
  /\ exists evs,
       trace s' = (trace s ++ evs)%list
       /\ launch_outcome s s' evs (office_process s) (office_process s')
            (fun args => exists path,
                 args = office_arguments path port /\ office_executable w path).
Proof.
  cbv zeta. unfold launch_outcome.
  destruct (start_office w port s) as [r s'] eqn:Hrun. cbn [snd].
  unfold start_office in Hrun. unfold bind at 1 in Hrun.
  rewrite is_port_in_use_run in Hrun.
  set (s1 := set_trace (trace s ++ [EConnect port]) s) in Hrun.
  destruct (connect_ex w (length (trace s)) port) as [code|e].
  2:{ inversion Hrun; subst r s'. cbn. frame_same.
      exists [EConnect port]. split; [reflexivity|].
      left. repeat split; auto; intros; intros [H | []]; discriminate H. }
  destruct (code =? 0)%Z; cbn [negb] in Hrun.
  { inversion Hrun; subst r s'. cbn. frame_same.
    exists [EConnect port; EPrint ("Office socket already running on port " ++ str_of_Z port)].
    split; [rewrite <- app_assoc; reflexivity|].
    left. repeat split; auto; intros; intros [H | [H | []]]; discriminate H. }
  unfold bind at 1 in Hrun.
  change (print "Starting Collabora Office with socket..." s1)
    with (Ok tt, set_trace (trace s1 ++ [EPrint "Starting Collabora Office with socket..."]) s1)
    in Hrun.
  set (s2 := set_trace (trace s1 ++ [EPrint "Starting Collabora Office with socket..."]) s1)
    in Hrun.
  cbv iota beta in Hrun. unfold bind at 1 in Hrun.
  destruct (get_office_path_effect w s2) as (checked & Hs3 & Hpath).
  destruct (get_office_path w s2) as [[path | e] s3]; cbn [fst snd] in Hs3, Hpath.
  2:{ inversion Hrun; subst r s' s3. cbn. frame_same.
      exists (EConnect port :: EPrint "Starting Collabora Office with socket..."
              :: map EExists checked).
      split; [rewrite <- !app_assoc; reflexivity|].
      left. repeat split; auto.
      - intros args p [H | [H | H]]; try discriminate H.
        exact (not_in_map_exists_popen _ _ _ H).
      - intros secs [H | [H | H]]; try discriminate H.
        exact (not_in_map_exists_sleep _ _ H). }
  specialize (Hpath path eq_refl).
  change ((p <- Popen w (office_arguments path port);;
           modify (set_office_process (Some p));; time_sleep w 3) s3 = (r, s'))
    in Hrun.
  destruct (spawn_register_pause_effect w (office_arguments path port)
              set_office_process s3 (fun _ _ => eq_refl) (fun _ _ => eq_refl))
    as [[_ Hsame] | (_ & Hcalm & after_it & Ht & He)];
    rewrite Hrun in *; cbn [snd] in *.
  - subst s' s3. cbn. frame_same.
    exists (EConnect port :: EPrint "Starting Collabora Office with socket..."
            :: map EExists checked).
    split; [rewrite <- !app_assoc; reflexivity|].
    left. repeat split; auto.
    + intros args p [H | [H | H]]; try discriminate H.
      exact (not_in_map_exists_popen _ _ _ H).
    + intros secs [H | [H | H]]; try discriminate H.
      exact (not_in_map_exists_sleep _ _ H).
  - rewrite (calm_helper _ _ Hcalm), (calm_atexit _ _ Hcalm), (calm_sigint _ _ Hcalm),
      (calm_office _ _ Hcalm), (calm_next_pid _ _ Hcalm).
    subst s3. cbn. do 3 (split; [reflexivity|]). split.
    + intros p Hp. apply (calm_exited _ _ Hcalm). exact Hp.
    + exists ((EConnect port :: EPrint "Starting Collabora Office with socket..."
               :: map EExists checked)
              ++ EPopen (office_arguments path port) (next_pid s) :: ESleep 3 :: after_it)%list.
      split.
      * rewrite Ht. cbn. rewrite <- !app_assoc. reflexivity.
      * right. exists (office_arguments path port),
          (EConnect port :: EPrint "Starting Collabora Office with socket..."
           :: map EExists checked), after_it.
        split; [reflexivity|]. split; [exists path; auto|].
        split; [|split; [exact He | split; reflexivity]].
        intros a p [H | [H | H]]; try discriminate H.
        exact (not_in_map_exists_popen _ _ _ H).
Qed.

Lemma start_helper_effect (w : World) (s : State) :
  let s' := snd (start_helper w s) in
  office_process s' = office_process s
  /\ atexit_handlers s' = atexit_handlers s
  /\ sigint_handler s' = sigint_handler s
  /\ (forall p, has_exited s p -> has_exited s' p)
  /\ exists evs,
       trace s' = (trace s ++ evs)%list
       /\ launch_outcome s s' evs (helper_process s) (helper_process s')
            (helper_arguments w).
Proof.
  cbv zeta. unfold launch_outcome.
  destruct (start_helper w s) as [r s'] eqn:Hrun. cbn [snd].
  unfold start_helper in Hrun. unfold bind at 1 in Hrun.
  rewrite is_port_in_use_run in Hrun.
  set (s1 := set_trace (trace s ++ [EConnect 8765]) s) in Hrun.
  destruct (connect_ex w (length (trace s)) 8765) as [code|e].
  2:{ inversion Hrun; subst r s'. cbn. frame_same.
      exists [EConnect 8765]. split; [reflexivity|].
      left. repeat split; auto; intros; intros [H | []]; discriminate H. }
  destruct (code =? 0)%Z; cbn [negb] in Hrun.
  { inversion Hrun; subst r s'. cbn. frame_same.
    exists [EConnect 8765; EPrint "Helper script already running on port 8765"].
    split; [rewrite <- app_assoc; reflexivity|].
    left. repeat split; auto; intros; intros [H | [H | []]]; discriminate H. }
  unfold bind at 1 in Hrun.
  change (print "Starting Office helper..." s1)
    with (Ok tt, set_trace (trace s1 ++ [EPrint "Starting Office helper..."]) s1)
    in Hrun.
  set (s2 := set_trace (trace s1 ++ [EPrint "Starting Office helper..."]) s1) in Hrun.
  cbv iota beta in Hrun. unfold bind at 1 in Hrun. unfold sys_argv_0 in Hrun.
  destruct (sys_argv w) as [|argv0 rest] eqn:Hargv.
  { inversion Hrun; subst r s'. cbn. frame_same.
    exists [EConnect 8765; EPrint "Starting Office helper..."].
    split; [rewrite <- app_assoc; reflexivity|].
    left. repeat split; auto; intros; intros [H | [H | []]]; discriminate H. }
  cbn [ret] in Hrun. cbv zeta iota beta in Hrun. unfold bind at 1 in Hrun.
  destruct (get_python_path_effect w s2) as (checked & python_path & Hpy).
  rewrite Hpy in Hrun.
  set (s3 := set_trace (trace s2 ++ map EExists checked) s2) in Hrun.
  set (args := [ python_path; os_path_join w (os_path_dirname w argv0) "helper.py" ]) in Hrun.
  change ((p <- Popen w args;;
           modify (set_helper_process (Some p));; time_sleep w 3) s3 = (r, s'))
    in Hrun.
  destruct (spawn_register_pause_effect w args
              set_helper_process s3 (fun _ _ => eq_refl) (fun _ _ => eq_refl))
    as [[_ Hsame] | (_ & Hcalm & after_it & Ht & He)];
    rewrite Hrun in *; cbn [snd] in *.
  - subst s'. cbn. frame_same.
    exists (EConnect 8765 :: EPrint "Starting Office helper..." :: map EExists checked).
    split; [rewrite <- !app_assoc; reflexivity|].
    left. repeat split; auto.
    + intros a p [H | [H | H]]; try discriminate H.
      exact (not_in_map_exists_popen _ _ _ H).
    + intros secs [H | [H | H]]; try discriminate H.
      exact (not_in_map_exists_sleep _ _ H).
  - rewrite (calm_helper _ _ Hcalm), (calm_atexit _ _ Hcalm), (calm_sigint _ _ Hcalm),
      (calm_office _ _ Hcalm), (calm_next_pid _ _ Hcalm).
    cbn. do 3 (split; [reflexivity|]). split.
    + intros p Hp. apply (calm_exited _ _ Hcalm). exact Hp.
    + exists ((EConnect 8765 :: EPrint "Starting Office helper..." :: map EExists checked)
              ++ EPopen args (next_pid s) :: ESleep 3 :: after_it)%list.
      split.
      * rewrite Ht. cbn. rewrite <- !app_assoc. reflexivity.
      * right. exists args,
          (EConnect 8765 :: EPrint "Starting Office helper..." :: map EExists checked),
          after_it.
        split; [reflexivity|].
        split; [exists python_path, argv0, rest; split; [exact Hargv | reflexivity]|].
        split; [|split; [exact He | split; reflexivity]].
        intros a p [H | [H | H]]; try discriminate H.
        exact (not_in_map_exists_popen _ _ _ H).
Qed.

Lemma before_prefix {A : Type} (x y : A) (pre l : list A) :
  before x y l -> before x y (pre ++ l)%list.
Proof.
  intros H. induction pre as [|a pre IH]; [exact H|].
  cbn. apply before_later. exact IH.
Qed.

(** Reading a launch outcome from the side of the events. *)
Lemma launch_outcome_spawned (s s' : State) (evs : list event)
    (hb ha : option pid) (expected : list string -> Prop) :
  launch_outcome s s' evs hb ha expected ->
  forall args p,
    In (EPopen args p) evs ->
    p = next_pid s /\ ha = Some p /\ expected args
    /\ before (EPopen args p) (ESleep 3) evs.
Proof.
  intros [(Hnone & _) | (args0 & pre & post & Hevs & Hexp & Hpre & Hpost & Hha & _)]
         args p Hin.
  - destruct (Hnone _ _ Hin).
  - subst evs. apply in_app_or in Hin.
    destruct Hin as [Hin | [Hin | [Hin | Hin]]].
    + destruct (Hpre _ _ Hin).
    + inversion Hin; subst. split; [reflexivity|]. split; [reflexivity|].
      split; [exact Hexp|]. apply before_prefix, before_here. left. reflexivity.
    + discriminate Hin.
    + destruct (Hpost _ _ Hin).
Qed.

Lemma launch_outcome_idle (s s' : State) (evs : list event)
    (hb ha : option pid) (expected : list string -> Prop) :
  launch_outcome s s' evs hb ha expected ->
  (forall args p, ~ In (EPopen args p) evs) ->
  ha = hb /\ forall secs, ~ In (ESleep secs) evs.
Proof.
  intros [(_ & Hsleep & Hha & _) | (args0 & pre & post & Hevs & _)] Hnone.
  - auto.
  - exfalso. apply (Hnone args0 (next_pid s)). subst evs.
    apply in_or_app. right. left. reflexivity.
Qed.

(** What the resolver answers does not depend on the state it runs in. *)
Lemma first_existing_stateless (w : World) (l : list string) (s s' : State) :
  fst (first_existing w l s) = fst (first_existing w l s').
Proof.
  destruct (first_split (path_exists w) l)
    as [Hnone | (pre & p & post & Hl & Hpre & Hp)].
  - rewrite !(first_existing_none w l Hnone). reflexivity.
  - subst l. rewrite !(first_existing_found w pre post p Hpre Hp). reflexivity.
Qed.

Lemma get_office_path_stateless (w : World) (s s' : State) :
  fst (get_office_path w s) = fst (get_office_path w s').
Proof.
  unfold get_office_path. cbv zeta. unfold bind.
  destruct (lower (platform_system w) =? "windows").
  - cbn [ret].
    pose proof (first_existing_stateless w office_paths_windows s s') as H.
    destruct (first_existing w office_paths_windows s) as [[[p|]|e] s0];
      destruct (first_existing w office_paths_windows s') as [[[p'|]|e'] s0'];
      cbn in H |- *; congruence.
  - destruct (lower (platform_system w) =? "linux"); [|reflexivity].
    cbn [ret].
    pose proof (first_existing_stateless w office_paths_linux s s') as H.
    destruct (first_existing w office_paths_linux s) as [[[p|]|e] s0];
      destruct (first_existing w office_paths_linux s') as [[[p'|]|e'] s0'];
      cbn in H |- *; congruence.
Qed.

(** With the port free the launch goes on to resolve and spawn. *)
Lemma start_office_port_free (w : World) (s : State) (port : Z) :
  fst (is_port_in_use w port s) = Ok false ->
  start_office w port s
  = (soffice_path <- get_office_path w;;
     p <- Popen w (office_arguments soffice_path port);;
     modify (set_office_process (Some p));;
     time_sleep w 3)
      (set_trace (trace s ++ [ EConnect port;
                               EPrint "Starting Collabora Office with socket..." ]) s).
Proof.
  intros Hfree. unfold start_office. unfold bind at 1.
  rewrite is_port_in_use_run in Hfree |- *. cbn in Hfree.
  destruct (connect_ex w (length (trace s)) port) as [code|e]; [|discriminate Hfree].
  injection Hfree as Hcode. rewrite Hcode. cbn [negb].
  unfold bind at 1. unfold print, emit, modify. cbv iota beta.
  norm_state. reflexivity.
Qed.

(** X2. [start_office] never touches the handle of the helper. Whenever
    it spawns a child, that child is the next one the system hands out,
    it was started from an existing candidate executable with the fixed
    flags and the port in [--accept], it is the office handle when the
    call ends, whether the call returns or raises, and the pause follows
    the spawn. When it spawns nothing the office handle is as before and
    there was no pause. With the port free, an executable found and the
    spawn succeeding, it does spawn. *)
Theorem start_office_registers_what_it_spawns (w : World) (s : State) (port : Z) :
  let s' := snd (start_office w port s) in
  helper_process s' = helper_process s
  /\ exists evs,
       trace s' = (trace s ++ evs)%list
       /\ (forall args p,
             In (EPopen args p) evs ->
             p = next_pid s
             /\ office_process s' = Some p
             /\ (exists path,
                    args = office_arguments path port /\ office_executable w path)
             /\ before (EPopen args p) (ESleep 3) evs)
       /\ ((forall args p, ~ In (EPopen args p) evs) ->
           office_process s' = office_process s
           /\ forall secs, ~ In (ESleep secs) evs)
       /\ (forall path,
             fst (is_port_in_use w port s) = Ok false ->
             fst (get_office_path w s) = Ok path ->
             popen_error w (office_arguments path port) = None ->
             In (EPopen (office_arguments path port) (next_pid s)) evs).
Proof.
  cbv zeta.
  destruct (start_office_effect w port s) as (Hh & _ & _ & _ & evs & Ht & Hout).
  split; [exact Hh|]. exists evs. split; [exact Ht|].
  split; [exact (launch_outcome_spawned _ _ _ _ _ _ Hout)|].
  split; [exact (launch_outcome_idle _ _ _ _ _ _ Hout)|].
  intros path Hfree Hpath Hspawn.
  rewrite (start_office_port_free w s port Hfree) in Ht.
  set (s2 := set_trace (trace s ++ [ EConnect port;
                 EPrint "Starting Collabora Office with socket..." ]) s) in Ht.
  rewrite (get_office_path_stateless w s s2) in Hpath.
  destruct (get_office_path_effect w s2) as (checked & Hs3 & _).
  unfold bind at 1 in Ht.
  destruct (get_office_path w s2) as [r3 s3]. cbn in Hpath, Hs3. subst r3 s3.
  cbv iota beta in Ht.
  match type of Ht with
  | trace (snd (_ ?st)) = _ => set (s3 := st) in Ht
  end.
  destruct (spawn_register_pause_effect w (office_arguments path port)
              set_office_process s3 (fun _ _ => eq_refl) (fun _ _ => eq_refl))
    as [[Hbad _] | (_ & _ & after_it & Ht' & _)]; [contradiction|].
  rewrite Ht' in Ht. subst s3 s2. cbn in Ht.
  rewrite <- !app_assoc in Ht. apply app_inv_head in Ht. subst evs.
  cbn. right. right. apply in_or_app. right. left. reflexivity.
Qed.

Lemma start_office_registers_what_it_spawns_witness :
  office_process (snd (start_office linux_world 2002 initial_state)) = Some 0%nat
  /\ helper_process (snd (start_office linux_world 2002 initial_state)) = None.
Proof.
  destruct (start_office_registers_what_it_spawns linux_world initial_state 2002)
    as (Hhelper & evs & Htrace & Hspawn & _ & Hdoes).
  split; [|exact Hhelper].
  specialize (Hdoes "/opt/collaboraoffice/program/soffice" eq_refl eq_refl eq_refl).
  apply Hspawn in Hdoes. apply Hdoes.
Defined.

Lemma get_python_path_stateless (w : World) (s s' : State) :
  fst (get_python_path w s) = fst (get_python_path w s').
Proof.
  unfold get_python_path. cbv zeta.
  destruct (lower (platform_system w) =? "windows"); [|reflexivity].
  unfold bind.
  pose proof (first_existing_stateless w python_paths_windows s s') as H.
  destruct (first_existing w python_paths_windows s) as [[[p|]|e] s0];
    destruct (first_existing w python_paths_windows s') as [[[p'|]|e'] s0'];
    cbn in H |- *; congruence.
Qed.

Lemma start_helper_port_free (w : World) (s : State) (argv0 : string)
    (rest : list string) :
  fst (is_port_in_use w 8765 s) = Ok false ->
  sys_argv w = argv0 :: rest ->
  start_helper w s
  = (python_path <- get_python_path w;;
     p <- Popen w [ python_path;
                    os_path_join w (os_path_dirname w argv0) "helper.py" ];;
     modify (set_helper_process (Some p));;
     time_sleep w 3)
      (set_trace (trace s ++ [ EConnect 8765; EPrint "Starting Office helper..." ]) s).
Proof.
  intros Hfree Hargv. unfold start_helper. unfold bind at 1.
  rewrite is_port_in_use_run in Hfree |- *. cbn in Hfree.
  destruct (connect_ex w (length (trace s)) 8765) as [code|e]; [|discriminate Hfree].
  injection Hfree as Hcode. rewrite Hcode. cbn [negb].
  unfold bind at 1. unfold print, emit, modify. cbv iota beta.
  unfold bind at 1. unfold sys_argv_0. rewrite Hargv. cbn [ret]. cbv iota beta zeta.
  norm_state. reflexivity.
Qed.

(** X3. [start_helper] never touches the office handle. Whenever it
    spawns a child, that child is the next one the system hands out, its
    arguments are an interpreter and [helper.py] beside [sys.argv[0]],
    it is the helper handle when the call ends, whether the call returns
    or raises, and the pause follows the spawn. When it spawns nothing
    the helper handle is as before and there was no pause. With the port
    free and the spawn succeeding it does spawn, under the interpreter
    that [get_python_path] answers. *)
Theorem start_helper_registers_what_it_spawns (w : World) (s : State) :
  let s' := snd (start_helper w s) in
  office_process s' = office_process s
  /\ exists evs,
       trace s' = (trace s ++ evs)%list
       /\ (forall args p,
             In (EPopen args p) evs ->
             p = next_pid s
             /\ helper_process s' = Some p
             /\ helper_arguments w args
             /\ before (EPopen args p) (ESleep 3) evs)
       /\ ((forall args p, ~ In (EPopen args p) evs) ->
           helper_process s' = helper_process s
           /\ forall secs, ~ In (ESleep secs) evs)
       /\ (forall argv0 rest python_path,
             fst (is_port_in_use w 8765 s) = Ok false ->
             sys_argv w = argv0 :: rest ->
             fst (get_python_path w s) = Ok python_path ->
             (forall args, popen_error w args = None) ->
             In (EPopen [ python_path;
                          os_path_join w (os_path_dirname w argv0) "helper.py" ]
                   (next_pid s)) evs).
Proof.
  cbv zeta.
  destruct (start_helper_effect w s) as (Ho & _ & _ & _ & evs & Ht & Hout).
  split; [exact Ho|]. exists evs. split; [exact Ht|].
  split; [exact (launch_outcome_spawned _ _ _ _ _ _ Hout)|].
  split; [exact (launch_outcome_idle _ _ _ _ _ _ Hout)|].
  intros argv0 rest python_path Hfree Hargv Hpy Hspawn.
  rewrite (start_helper_port_free w s argv0 rest Hfree Hargv) in Ht.
  set (s2 := set_trace (trace s ++ [ EConnect 8765;
                 EPrint "Starting Office helper..." ]) s) in Ht.
  rewrite (get_python_path_stateless w s s2) in Hpy.
  destruct (get_python_path_effect w s2) as (checked & py & Hrun).
  unfold bind at 1 in Ht. rewrite Hrun in Ht, Hpy. cbn in Hpy.
  injection Hpy as Hpy. subst py. cbv iota beta in Ht.
  match type of Ht with
  | trace (snd (_ ?st)) = _ => set (s3 := st) in Ht
  end.
  destruct (spawn_register_pause_effect w
              [ python_path; os_path_join w (os_path_dirname w argv0) "helper.py" ]
              set_helper_process s3 (fun _ _ => eq_refl) (fun _ _ => eq_refl))
    as [[Hbad _] | (_ & _ & after_it & Ht' & _)];
    [rewrite Hspawn in Hbad; contradiction|].
  rewrite Ht' in Ht. subst s3 s2. cbn in Ht.
  rewrite <- !app_assoc in Ht. apply app_inv_head in Ht. subst evs.
  cbn. right. right. apply in_or_app. right. left. reflexivity.
Qed.

Lemma start_helper_registers_what_it_spawns_witness :
  helper_process (snd (start_helper linux_world initial_state)) = Some 0%nat
  /\ office_process (snd (start_helper linux_world initial_state)) = None.
Proof.
  destruct (start_helper_registers_what_it_spawns linux_world initial_state)
    as (Hoffice & evs & Htrace & Hspawn & _ & Hdoes).
  split; [|exact Hoffice].
  specialize (Hdoes "/opt/smolpc/main.py" [] "/usr/bin/python3"
                eq_refl eq_refl eq_refl (fun _ => eq_refl)).
  apply Hspawn in Hdoes. apply Hdoes.
Defined.

(** ** A whole run *)

Lemma calm_step_spawned (s s' : State) (p : pid) :
  calm_step s s' -> spawned_in (trace s') p -> spawned_in (trace s) p.
Proof.
  intros Hc [args Hin]. destruct (calm_trace _ _ Hc) as (evs & Ht & He & _).
  rewrite Ht in Hin. apply in_app_or in Hin.
  destruct Hin as [Hin | Hin]; [exists args; exact Hin | destruct (He _ _ Hin)].
Qed.

Lemma install_handlers_atexit (w : World) (s : State) :
  atexit_handlers (snd (install_handlers w s))
  = (atexit_handlers s ++ [cb_cleanup_processes])%list.
Proof.
  unfold install_handlers, bind, modify, ret. cbn.
  destruct (negb (platform_system w =? "Windows")); reflexivity.
Qed.

Lemma startup_atexit (w : World) (s : State) :
  atexit_handlers (snd (startup w s)) = atexit_handlers s.
Proof.
  unfold startup, bind.
  destruct (start_office_effect w 2002 s) as (_ & Ha1 & _).
  destruct (start_office w 2002 s) as [[[] | e] s1]; cbn [fst snd] in Ha1 |- *;
    [|exact Ha1].
  destruct (start_helper_effect w s1) as (_ & Ha2 & _).
  destruct (start_helper w s1) as [[[] | e] s2]; cbn [fst snd] in Ha2 |- *;
    [|congruence].
  rewrite (calm_atexit _ _ (calm_start_mcp_server w s2)). congruence.
Qed.

(** After the three start calls every child spawned so far is the handle
    of a role, however far the calls got. *)
Lemma startup_spawned_owned (w : World) (s : State) :
  nothing_spawned s ->
  forall p, spawned_in (trace (snd (startup w s))) p -> owned (snd (startup w s)) p.
Proof.
  intros Hnone. unfold startup, bind.
  destruct (start_office_effect w 2002 s) as (_ & _ & _ & _ & evs1 & Ht1 & Hout1).
  assert (H1 : forall p,
             spawned_in (trace (snd (start_office w 2002 s))) p ->
             office_process (snd (start_office w 2002 s)) = Some p).
  { intros p [args Hin]. rewrite Ht1 in Hin. apply in_app_or in Hin.
    destruct Hin as [Hin | Hin]; [destruct (Hnone _ _ Hin)|].
    apply (launch_outcome_spawned _ _ _ _ _ _ Hout1) in Hin. apply Hin. }
  clear Ht1 Hout1.
  destruct (start_office w 2002 s) as [[[] | e] s1]; cbn [fst snd] in H1 |- *;
    [|intros p Hp; left; apply H1, Hp].
  destruct (start_helper_effect w s1) as (Ho2 & _ & _ & _ & evs2 & Ht2 & Hout2).
  assert (H2 : forall p,
             spawned_in (trace (snd (start_helper w s1))) p ->
             owned (snd (start_helper w s1)) p).
  { intros p [args Hin]. rewrite Ht2 in Hin. apply in_app_or in Hin.
    destruct Hin as [Hin | Hin].
    - left. rewrite Ho2. apply H1. exists args. exact Hin.
    - right. apply (launch_outcome_spawned _ _ _ _ _ _ Hout2) in Hin. apply Hin. }
  clear Ht2 Hout2 Ho2.
  destruct (start_helper w s1) as [[[] | e] s2]; cbn [fst snd] in H2 |- *;
    [|exact H2].
  intros p Hp.
  pose proof (calm_start_mcp_server w s2) as Hc.
  apply (calm_step_owned _ _ p Hc), H2, (calm_step_spawned _ _ p Hc), Hp.
Qed.

(** The registrations cannot fail, so [main] is its [try] statement run
    in the state they leave. *)
Lemma main_run (w : World) (s : State) :
  main w s
  = try_except (startup w)
      (fun e =>
         match e with
         | KeyboardInterrupt =>
             Some (print (newline ++ "Received keyboard interrupt. Shutting down...");;
                   cleanup_processes w;; sys_exit 0)
         | _ =>
             if is_Exception e then
               Some (print ("An error occurred: " ++ exn_str e);;
                     cleanup_processes w;; sys_exit 1)
             else None
         end) (snd (install_handlers w s)).
Proof.
  destruct (install_handlers_run w s) as (Hi & _).
  unfold main. unfold bind at 1.
  destruct (install_handlers w s) as [ri si]. cbn in Hi. subst ri. reflexivity.
Qed.

(** [main] from its registrations to the end of its [try] statement. *)
Lemma main_effect (w : World) (s : State) :
  atexit_handlers (snd (main w s))
  = (atexit_handlers s ++ [cb_cleanup_processes])%list
  /\ calm_step (snd (startup w (snd (install_handlers w s)))) (snd (main w s)).
Proof.
  rewrite main_run.
  pose proof (install_handlers_atexit w s) as Ha.
  set (s1 := snd (install_handlers w s)) in *.
  pose proof (startup_atexit w s1) as Hs.
  unfold try_except.
  destruct (startup w s1) as [[[] | e] s2]; cbn [fst snd] in Hs |- *.
  - split; [congruence | apply calm_step_refl].
  - assert (Hq : forall msg code,
               calm_step s2 (snd ((print msg;; cleanup_processes w;;
                                    @sys_exit unit code) s2)))
      by (intros; apply quiet_step_calm, quiet_log_cleanup_exit).
    destruct e; cbn [is_Exception];
      try (split; [rewrite (calm_atexit _ _ (Hq _ _)); congruence | apply Hq]);
      (split; [cbn [snd]; congruence | apply calm_step_refl]).
Qed.

(** X4. A run of the module as a script stops every child it has
    spawned: whichever way the run ends, the interpreter runs the
    shutdown routine on its way out, and after the first line of that
    routine every child of the run has exited or has been sent SIGKILL. *)
Theorem script_stops_every_child (w : World) (s : State) :
  nothing_spawned s ->
  exists before_it after_it,
    trace (snd (script w s))
    = (before_it ++ EPrint "Cleaning up processes..." :: after_it)%list
    /\ forall p,
         spawned_in (trace (snd (script w s))) p ->
         stopped after_it (snd (script w s)) p.
Proof.
  intros Hnone.
  destruct (main_effect w s) as (Ha & Hcalm).
  destruct (install_handlers_run w s) as (_ & _ & Hti & _).
  assert (Hnone1 : nothing_spawned (snd (install_handlers w s))).
  { intros args q. rewrite Hti. apply Hnone. }
  pose proof (startup_spawned_owned w _ Hnone1) as Hown.
  unfold script.
  destruct (main w s) as [r s1]. cbn [fst snd] in Ha, Hcalm |- *.
  rewrite Ha, rev_app_distr. cbn [rev app run_atexit call_back].
  destruct (cleanup_processes_result w s1) as (_ & evs & Ht & Hex).
  pose proof (run_atexit_quiet w (rev (atexit_handlers s))
                (snd (cleanup_processes w s1))) as Hq.
  destruct (quiet_trace _ _ Hq) as (evs' & Ht' & _).
  exists (trace s1), (evs ++ evs')%list. split.
  - rewrite Ht', Ht, <- app_assoc. reflexivity.
  - intros p Hp. apply (quiet_step_stopped _ _ evs evs' p Hq). apply Hex.
    apply (calm_step_owned _ _ p Hcalm), Hown, (calm_step_spawned _ _ p Hcalm).
    eapply calm_step_spawned; [|exact Hp].
    apply quiet_step_calm.
    eapply quiet_step_trans; [apply quiet_cleanup_processes | exact Hq].
Qed.

Lemma script_stops_every_child_witness :
  exists before_it after_it,
    trace (snd (script linux_world initial_state))
    = (before_it ++ EPrint "Cleaning up processes..." :: after_it)%list
    /\ stopped after_it (snd (script linux_world initial_state)) 0%nat
    /\ stopped after_it (snd (script linux_world initial_state)) 1%nat.
Proof.
  destruct (script_stops_every_child linux_world initial_state)
    as (before_it & after_it & Htrace & Hall); [intros args p []|].
  exists before_it, after_it. split; [exact Htrace|].
  split; apply Hall; eexists; vm_compute;
    repeat (first [left; reflexivity | right]).
Defined.

(** X5. When the three start calls return, which is when the server has
    ended, [main] returns without calling [sys.exit], the exit status is
    0, and the shutdown routine still runs: it is the first thing the
    interpreter does on its way out. It asks every owned child that is
    running to terminate, and when the interpreter is done every owned
    child has exited or has been sent SIGKILL. *)
Theorem script_normal_exit (w : World) (s : State) :
  let s2 := snd (startup w (snd (install_handlers w s))) in
  fst (startup w (snd (install_handlers w s))) = Ok tt ->
  main w s = (Ok tt, s2)
  /\ fst (script w s) = 0%Z
  /\ exists evs,
       trace (snd (script w s))
       = (trace s2 ++ EPrint "Cleaning up processes..." :: evs)%list
       /\ forall p, owned s2 p ->
            (is_running s2 p -> In (ETerminate p) evs)
            /\ stopped evs (snd (script w s)) p.
Proof.
  intros s2 Hok.
  destruct (main_effect w s) as (Ha & _).
  destruct (install_handlers_run w s) as (Hi & _).
  assert (Hmain : main w s = (Ok tt, s2)).
  { rewrite main_run. unfold try_except. subst s2.
    destruct (startup w (snd (install_handlers w s))) as [r0 s0].
    cbn in Hok |- *. subst r0. reflexivity. }
  rewrite Hmain in Ha. cbn [snd] in Ha.
  split; [exact Hmain|]. unfold script. rewrite Hmain. cbn [fst snd exit_status].
  split; [reflexivity|].
  rewrite Ha, rev_app_distr. cbn [rev app run_atexit call_back].
  destruct (cleanup_processes_result w s2) as (_ & evs & Ht & Hex).
  pose proof (run_atexit_quiet w (rev (atexit_handlers s))
                (snd (cleanup_processes w s2))) as Hq.
  destruct (quiet_trace _ _ Hq) as (evs' & Ht' & _).
  exists (evs ++ evs')%list. split.
  - rewrite Ht', Ht, <- app_assoc. reflexivity.
  - intros p Hp. destruct (Hex p Hp) as [Hask Hstop]. split.
    + intros Hrun. apply in_or_app. left. apply Hask, Hrun.
    + apply (quiet_step_stopped _ _ evs evs' p Hq). exact Hstop.
Qed.

Lemma script_normal_exit_witness :
  fst (script linux_world initial_state) = 0%Z
  /\ main linux_world initial_state
     = (Ok tt, snd (startup linux_world (snd (install_handlers linux_world initial_state)))).
Proof.
  destruct (script_normal_exit linux_world initial_state) as (Hmain & Hcode & _);
    [reflexivity|].
  split; [exact Hcode | exact Hmain].
Defined.

(** ** Shutdown, once more *)

(** X6. The shutdown routine asks a child to stop only if a handle
    refers to it and it was still running; it kills only after the
    request to terminate; and it leaves both handles set as they were.
    Unless both handles refer to the same child, it asks a child to
    terminate once and kills it at most once. *)
Theorem shutdown_stops_only_running_children (w : World) (s : State) :
  let s' := snd (cleanup_processes w s) in
  office_process s' = office_process s
  /\ helper_process s' = helper_process s
  /\ exists evs,
       trace s' = (trace s ++ evs)%list
       /\ forall p,
            (In (ETerminate p) evs \/ In (EKill p) evs ->
             owned s p /\ is_running s p)
            /\ (In (EKill p) evs -> before (ETerminate p) (EKill p) evs)
            /\ (~ (office_process s = Some p /\ helper_process s = Some p) ->
                ~ before (ETerminate p) (ETerminate p) evs
                /\ ~ before (EKill p) (EKill p) evs).
Proof.
  cbv zeta.
  destruct s as [o h ax si st np sg ex tr].
  unfold owned, is_running. unfold_py.
  destruct h as [hp|]; destruct o as [op|]; repeat step_cleanup;
    cbn; (split; [reflexivity|]); (split; [reflexivity|]);
    (eexists; split; [norm_state; reflexivity|]);
    intros p; (split; [|split; [|intros Hne; split]]).
  all: try (intros Hin; in_events; try contradiction; auto 20 with shutdown; fail).
  all: try (intros Hb; invert_before; in_events; try contradiction;
            first [congruence | apply Hne; split; reflexivity]).
Qed.

Lemma shutdown_stops_only_running_children_witness :
  exists evs,
    trace (snd (cleanup_processes linux_world both_running)) = evs
    /\ before (ETerminate 1%nat) (EKill 1%nat) evs
    /\ ~ In (EKill 0%nat) evs.
Proof.
  destruct (shutdown_stops_only_running_children linux_world both_running)
    as (_ & _ & evs & Htrace & Hall).
  change (trace both_running ++ evs)%list with evs in Htrace.
  exists evs. split; [exact Htrace|]. split.
  - apply (Hall 1%nat). rewrite <- Htrace. vm_compute. auto 20.
  - rewrite <- Htrace. vm_compute.
    intros Hin. repeat (destruct Hin as [Hin | Hin]; [discriminate Hin|]). exact Hin.
Defined.

(** Why the premise: a child that both handles refer to, that ignores
    SIGTERM and that outlives the kill is found running by the second
    poll of the routine, and is asked to terminate again. *)
Lemma shared_child_is_asked_twice :
  before (ETerminate 0%nat) (ETerminate 0%nat)
    (trace (snd (cleanup_processes sigint_world
                   (set_helper_process (Some 0%nat) both_running)))).
Proof.
  vm_compute.
  repeat (first [apply before_here; cbn; tauto | apply before_later]).
Qed.

Lemma mem_pid_In (p : pid) (l : list pid) : mem_pid p l = true <-> In p l.
Proof.
  unfold mem_pid. rewrite existsb_exists. split.
  - intros (q & Hq & Heq). apply Nat.eqb_eq in Heq. subst q. exact Hq.
  - intros Hp. exists p. split; [exact Hp | apply Nat.eqb_refl].
Qed.

(** The routine marks as exited only children that had exited before or
    that a handle refers to. *)
Lemma cleanup_processes_exited_only_owned (w : World) (s : State) (p : pid) :
  has_exited (snd (cleanup_processes w s)) p -> has_exited s p \/ owned s p.
Proof.
  unfold has_exited. rewrite !mem_pid_In. revert p.
  destruct s as [o h ax si st np sg ex tr].
  unfold owned. unfold_py.
  destruct h as [hp|]; destruct o as [op|]; repeat step_cleanup; cbn;
    intros p Hin; repeat (destruct Hin as [Hin | Hin]; [subst; auto|]); auto.
Qed.

(** ** Launching twice *)

Lemma time_sleep_undisturbed (w : World) (secs : Z) (s : State) :
  (forall t, sigint w t = false) ->
  time_sleep w secs s = (Ok tt, set_trace (trace s ++ [ESleep secs]) s).
Proof.
  intros Hquiet.
  change (time_sleep w secs s)
    with (deliver_sigint w (set_trace (trace s ++ [ESleep secs]) s)).
  rewrite deliver_sigint_run, Hquiet. reflexivity.
Qed.

(** A launch that meets no obstacle, in full. *)
Lemma start_office_launch_run (w : World) (s : State) (port : Z) (path : string) :
  (forall t, sigint w t = false) ->
  fst (is_port_in_use w port s) = Ok false ->
  fst (get_office_path w s) = Ok path ->
  popen_error w (office_arguments path port) = None ->
  exists checked,
    start_office w port s
    = (Ok tt,
       set_office_process (Some (next_pid s))
         (set_next_pid (S (next_pid s))
            (set_trace
               (trace s
                ++ EConnect port
                :: EPrint "Starting Collabora Office with socket..."
                :: map EExists checked
                ++ [ EPopen (office_arguments path port) (next_pid s); ESleep 3 ])
               s))).
Proof.
  intros Hquiet Hfree Hpath Hspawn.
  rewrite (start_office_port_free w s port Hfree).
  set (s2 := set_trace (trace s ++ [ EConnect port;
                 EPrint "Starting Collabora Office with socket..." ]) s).
  rewrite (get_office_path_stateless w s s2) in Hpath.
  destruct (get_office_path_effect w s2) as (checked & Hs3 & _).
  exists checked. unfold bind at 1.
  destruct (get_office_path w s2) as [r3 s3]. cbn in Hpath, Hs3. subst r3 s3.
  cbv iota beta.
  match goal with
  | |- _ ?st = _ => set (s3 := st)
  end.
  assert (Hrun : (p <- Popen w (office_arguments path port);;
                  modify (set_office_process (Some p));; time_sleep w 3) s3
                 = time_sleep w 3
                     (set_office_process (Some (next_pid s3))
                        (set_trace
                           (trace s3 ++ [EPopen (office_arguments path port) (next_pid s3)])
                           (set_next_pid (S (next_pid s3)) s3)))).
  { unfold bind at 1. unfold Popen. rewrite Hspawn. reflexivity. }
  rewrite Hrun, time_sleep_undisturbed by exact Hquiet.
  subst s3 s2. norm_state. reflexivity.
Qed.

(** X7. The port probe is all that keeps a launch from repeating. If
    [start_office] is called again while the port is still free (no
    signal arriving, the executable found, the spawn succeeding), a
    second office suite is spawned and takes over the handle; the first
    one is then no handle's child, the shutdown routine asks nothing of
    it, and it is still running afterwards. *)
Theorem second_launch_orphans_first
    (w : World) (s : State) (port : Z) (path : string) :
  (forall t, sigint w t = false) ->
  fst (is_port_in_use w port s) = Ok false ->
  fst (is_port_in_use w port (snd (start_office w port s))) = Ok false ->
  fst (get_office_path w s) = Ok path ->
  popen_error w (office_arguments path port) = None ->
  well_owned s ->
  is_running s (next_pid s) ->
  let first := next_pid s in
  let s2 := snd (start_office w port (snd (start_office w port s))) in
  let s3 := snd (cleanup_processes w s2) in
  spawned_in (trace s2) first
  /\ office_process s2 = Some (S first)
  /\ ~ owned s2 first
  /\ (exists evs,
        trace s3 = (trace s2 ++ evs)%list
        /\ ~ In (ETerminate first) evs /\ ~ In (EKill first) evs)
  /\ is_running s3 first.
Proof.
  intros Hquiet Hfree1 Hfree2 Hpath Hspawn Hwell Hrun first s2 s3.
  destruct (start_office_launch_run w s port path Hquiet Hfree1 Hpath Hspawn)
    as (checked1 & Hrun1).
  rewrite Hrun1 in Hfree2. subst s3 s2. rewrite Hrun1. cbn [snd] in Hfree2 |- *.
  set (s1 := set_office_process (Some (next_pid s)) _) in *.
  assert (Hpath1 : fst (get_office_path w s1) = Ok path)
    by (rewrite <- (get_office_path_stateless w s s1); exact Hpath).
  destruct (start_office_launch_run w s1 port path Hquiet Hfree2 Hpath1 Hspawn)
    as (checked2 & Hrun2).
  rewrite Hrun2. cbn [snd].
  set (s2 := set_office_process (Some (next_pid s1)) _).
  assert (Hspawned : spawned_in (trace s2) first).
  { exists (office_arguments path port). subst s2 s1 first. cbn.
    rewrite !in_app_iff. cbn. rewrite !in_app_iff. cbn. auto 20. }
  assert (Hnot : ~ owned s2 first).
  { subst s2 s1 first. unfold owned. cbn. intros [H | H].
    - inversion H. lia.
    - destruct (owned_spawned _ Hwell (next_pid s) (or_intror H)) as [a Ha].
      apply (spawned_below _ Hwell) in Ha. lia. }
  split; [exact Hspawned|]. split; [reflexivity|]. split; [exact Hnot|].
  pose proof (quiet_cleanup_processes w s2) as Hq.
  split.
  - destruct (quiet_trace _ _ Hq) as (evs & Ht & _ & Hstops).
    exists evs. split; [exact Ht|].
    split; intros Hin; apply Hnot, Hstops; auto.
  - unfold is_running.
    destruct (mem_pid first (exited (snd (cleanup_processes w s2)))) eqn:Hex;
      [|reflexivity].
    exfalso.
    destruct (cleanup_processes_exited_only_owned w s2 first Hex) as [H | H];
      [|exact (Hnot H)].
    unfold has_exited in H. subst s2 s1. cbn in H.
    unfold is_running in Hrun. subst first. congruence.
Qed.

Lemma second_launch_orphans_first_witness :
  is_running
    (snd (cleanup_processes linux_world
            (snd (start_office linux_world 2002
                    (snd (start_office linux_world 2002 initial_state))))))
    0%nat.
Proof.
  apply (second_launch_orphans_first linux_world initial_state 2002
           "/opt/collaboraoffice/program/soffice");
    try reflexivity.
  apply well_owned_initial.
Defined.

(** ** The signal handler *)

(** X8. [signal_handler] never returns: it logs, runs the shutdown
    routine and raises [SystemExit(0)], so a process that ends through
    it has status 0 even when a child had to be killed. Both handles are
    as they were; every owned child that was running has been asked to
    terminate, and when the handler raises every owned child has exited
    or has been sent SIGKILL. *)
Theorem signal_handler_exits_zero (w : World) (s : State) :
  let s' := snd (signal_handler w s) in
  fst (signal_handler w s) = Raise (SystemExit 0)
  /\ exit_status (fst (signal_handler w s)) = 0%Z
  /\ office_process s' = office_process s
  /\ helper_process s' = helper_process s
  /\ exists evs,
       trace s'
       = (trace s
          ++ EPrint (newline ++ "Received interrupt signal. Shutting down...")
          :: EPrint "Cleaning up processes..." :: evs)%list
       /\ forall p, owned s p ->
            (is_running s p -> In (ETerminate p) evs) /\ stopped evs s' p.
Proof.
  cbv zeta.
  destruct (signal_handler_result w s) as (Hr & Hres).
  pose proof (quiet_signal_handler w s) as Hq.
  split; [exact Hr|]. split; [rewrite Hr; reflexivity|].
  split; [exact (quiet_office _ _ Hq)|]. split; [exact (quiet_helper _ _ Hq)|].
  exact Hres.
Qed.

Lemma signal_handler_exits_zero_witness :
  fst (signal_handler linux_world both_running) = Raise (SystemExit 0)
  /\ exists evs,
       trace (snd (signal_handler linux_world both_running))
       = (EPrint (newline ++ "Received interrupt signal. Shutting down...")
          :: EPrint "Cleaning up processes..." :: evs)%list
       /\ In (ETerminate 1%nat) evs
       /\ stopped evs (snd (signal_handler linux_world both_running)) 1%nat.
Proof.
  destruct (signal_handler_exits_zero linux_world both_running)
    as (Hraise & _ & _ & _ & evs & Htrace & Hall).
  split; [exact Hraise|]. exists evs. split; [exact Htrace|].
  destruct (Hall 1%nat (or_intror eq_refl)) as [Hask Hstop].
  split; [apply Hask; reflexivity | exact Hstop].
Defined.

(** ** The launch helper of the tests *)

(** X9. The [start_helper] of the test suite shares the port probe with
    the module, so it spawns nothing when the port is bound. When it
    does spawn, the script is [helper.py] in the directory above the
    test file, and the child is unknown to the module: no handle refers
    to it, and the shutdown routine asks nothing of it. *)
Theorem test_helper_is_not_owned (w : World) (test_file : string) (s : State) :
  well_owned s ->
  let s' := snd (test_mcp_start_helper w test_file s) in
  office_process s' = office_process s
  /\ helper_process s' = helper_process s
  /\ (fst (is_port_in_use w 8765 s) = Ok true ->
      test_mcp_start_helper w test_file s
      = (Ok tt,
         set_trace (trace s ++ [ EConnect 8765;
                                 EPrint "Helper script already running on port 8765" ]) s))
  /\ exists evs,
       trace s' = (trace s ++ evs)%list
       /\ forall args p,
            In (EPopen args p) evs ->
            (exists python_path,
                args = [ python_path;
                         os_path_join w
                           (os_path_dirname w (os_path_dirname w test_file))
                           "helper.py" ])
            /\ ~ owned s' p
            /\ exists evs',
                 trace (snd (cleanup_processes w s')) = (trace s' ++ evs')%list
                 /\ ~ In (ETerminate p) evs' /\ ~ In (EKill p) evs'.
Proof.
  intros Hwell. cbv zeta.
  assert (Hfresh : ~ owned s (next_pid s)).
  { intros Hown. destruct (owned_spawned _ Hwell _ Hown) as [a Ha].
    apply (spawned_below _ Hwell) in Ha. lia. }
  assert (Hshut : forall s' p,
             ~ owned s' p ->
             exists evs',
               trace (snd (cleanup_processes w s')) = (trace s' ++ evs')%list
               /\ ~ In (ETerminate p) evs' /\ ~ In (EKill p) evs').
  { intros s' p Hnot.
    destruct (quiet_trace _ _ (quiet_cleanup_processes w s')) as (evs' & Ht & _ & Hk).
    exists evs'. split; [exact Ht|]. split; intros Hin; apply Hnot, Hk; auto. }
  destruct (test_mcp_start_helper w test_file s) as [r s'] eqn:Hrun. cbn [snd].
  unfold test_mcp_start_helper in Hrun. unfold bind at 1 in Hrun.
  rewrite is_port_in_use_run in Hrun |- *. cbn [fst].
  set (s1 := set_trace (trace s ++ [EConnect 8765]) s) in Hrun.
  destruct (connect_ex w (length (trace s)) 8765) as [code|e].
  2:{ inversion Hrun; subst r s'. cbn. do 2 (split; [reflexivity|]).
      split; [discriminate|].
      exists [EConnect 8765]. split; [reflexivity|].
      intros args p [H | []]. discriminate H. }
  destruct (code =? 0)%Z eqn:Hcode; cbn [negb] in Hrun.
  { inversion Hrun; subst r s'. cbn. do 2 (split; [reflexivity|]).
    split; [intros _; unfold print, emit, modify; norm_state; reflexivity|].
    exists [EConnect 8765; EPrint "Helper script already running on port 8765"].
    split; [rewrite <- app_assoc; reflexivity|].
    intros args p [H | [H | []]]; discriminate H. }
  unfold bind at 1 in Hrun.
  change (print "Starting Office helper..." s1)
    with (Ok tt, set_trace (trace s1 ++ [EPrint "Starting Office helper..."]) s1)
    in Hrun.
  set (s2 := set_trace (trace s1 ++ [EPrint "Starting Office helper..."]) s1) in Hrun.
  cbv iota beta zeta in Hrun. unfold bind at 1 in Hrun.
  destruct (get_python_path_effect w s2) as (checked & python_path & Hpy).
  rewrite Hpy in Hrun.
  set (s3 := set_trace (trace s2 ++ map EExists checked) s2) in Hrun.
  set (args0 := [ python_path;
                  os_path_join w (os_path_dirname w (os_path_dirname w test_file))
                    "helper.py" ]) in Hrun.
  cbv iota beta in Hrun. unfold bind at 1 in Hrun. unfold Popen in Hrun.
  destruct (popen_error w args0) as [e|].
  { inversion Hrun; subst r s'. cbn. do 2 (split; [reflexivity|]).
    split; [discriminate|].
    exists (EConnect 8765 :: EPrint "Starting Office helper..." :: map EExists checked).
    split; [rewrite <- !app_assoc; reflexivity|].
    intros args p [H | [H | H]]; try discriminate H.
    destruct (not_in_map_exists_popen _ _ _ H). }
  set (s4 := set_trace (trace s3 ++ [EPopen args0 (next_pid s3)])
               (set_next_pid (S (next_pid s3)) s3)).
  assert (Hrun4 : time_sleep w 3 s4 = (r, s')) by exact Hrun.
  destruct (pause_effect w s4) as (Hcalm & after_it & Ht & He).
  rewrite Hrun4 in Hcalm, Ht. cbn [snd] in Hcalm, Ht.
  rewrite (calm_office _ _ Hcalm), (calm_helper _ _ Hcalm).
  do 2 (split; [reflexivity|]). split; [discriminate|].
  exists ((EConnect 8765 :: EPrint "Starting Office helper..." :: map EExists checked)
          ++ EPopen args0 (next_pid s) :: ESleep 3 :: after_it)%list.
  split; [rewrite Ht; subst s4 s3 s2 s1; cbn; rewrite <- !app_assoc; reflexivity|].
  assert (Hnot : ~ owned s' (next_pid s)).
  { intros Hown. apply Hfresh. apply (calm_step_owned _ _ _ Hcalm) in Hown. exact Hown. }
  intros args p Hin. apply in_app_or in Hin.
  destruct Hin as [[H | [H | H]] | [H | [H | H]]]; try discriminate H.
  - destruct (not_in_map_exists_popen _ _ _ H).
  - inversion H; subst args p.
    split; [exists python_path; reflexivity|]. split; [exact Hnot|].
    apply Hshut, Hnot.
  - destruct (He _ _ H).
Qed.

Lemma test_helper_is_not_owned_witness :
  helper_process
    (snd (test_mcp_start_helper linux_world "/opt/smolpc/tests/test_mcp.py"
            initial_state))
  = None.
Proof.
  destruct (test_helper_is_not_owned linux_world "/opt/smolpc/tests/test_mcp.py"
              initial_state well_owned_initial)
    as (_ & Hhelper & _).
  exact Hhelper.
Defined.

(** ** Shutting down twice in one run *)

Lemma quiet_step_running (s s' : State) (p : pid) :
  quiet_step s s' -> is_running s' p -> is_running s p.
Proof.
  intros Hq Hr. unfold is_running in *.
  destruct (mem_pid p (exited s)) eqn:He; [|reflexivity].
  pose proof (quiet_exited _ _ Hq p He) as H. unfold has_exited in H. congruence.
Qed.

(** A registered function asks only owned children that are running to
    stop. *)
Lemma call_back_stops_running (w : World) (cb : callback) (s : State) :
  exists evs,
    trace (snd (call_back w cb s)) = (trace s ++ evs)%list
    /\ forall p, In (ETerminate p) evs \/ In (EKill p) evs ->
         owned s p /\ is_running s p.
Proof.
  assert (Hshut : forall s0,
             exists evs,
               trace (snd (cleanup_processes w s0)) = (trace s0 ++ evs)%list
               /\ forall p, In (ETerminate p) evs \/ In (EKill p) evs ->
                    owned s0 p /\ is_running s0 p).
  { intros s0.
    destruct (cleanup_processes_spec w s0) as (evs & sg & ex & Hrun & _ & _ & Hstop & _).
    rewrite Hrun. cbn. exists (EPrint "Cleaning up processes..." :: evs).
    split; [reflexivity|].
    intros p [[Hp | Hp] | [Hp | Hp]]; try discriminate Hp;
      destruct (Hstop _ Hp eq_refl) as (q & [Hq | Hq] & Hoq & Hrq);
      inversion Hq; subst; auto. }
  destruct cb; cbn [call_back]; [apply Hshut|].
  unfold signal_handler, bind.
  set (msg := newline ++ "Received interrupt signal. Shutting down...").
  change (print msg s) with (Ok tt, set_trace (trace s ++ [EPrint msg]) s).
  cbv iota beta.
  destruct (Hshut (set_trace (trace s ++ [EPrint msg]) s)) as (evs & Ht & Hstop).
  destruct (cleanup_processes w (set_trace (trace s ++ [EPrint msg]) s)) as [r s1].
  cbn [fst snd] in Ht. exists (EPrint msg :: evs). split.
  - destruct r; cbn; rewrite Ht; cbn; rewrite <- app_assoc; reflexivity.
  - intros p [[Hp | Hp] | [Hp | Hp]]; try discriminate Hp; apply Hstop; auto.
Qed.

Lemma run_atexit_stops_running (w : World) (cbs : list callback) (s : State) :
  exists evs,
    trace (run_atexit w cbs s) = (trace s ++ evs)%list
    /\ forall p, In (ETerminate p) evs \/ In (EKill p) evs ->
         owned s p /\ is_running s p.
Proof.
  revert s. induction cbs as [|cb cbs IH]; intros s; cbn [run_atexit].
  - exists []. split; [symmetry; apply app_nil_r|].
    intros p [[] | []].
  - destruct (call_back_stops_running w cb s) as (evs1 & Ht1 & Hs1).
    pose proof (quiet_call_back w cb s) as Hq.
    destruct (IH (snd (call_back w cb s))) as (evs2 & Ht2 & Hs2).
    exists (evs1 ++ evs2)%list. split.
    + rewrite Ht2, Ht1, <- app_assoc. reflexivity.
    + intros p Hin.
      assert (Hcases : (In (ETerminate p) evs1 \/ In (EKill p) evs1)
                       \/ (In (ETerminate p) evs2 \/ In (EKill p) evs2)).
      { rewrite !in_app_iff in Hin. tauto. }
      destruct Hcases as [H1 | H2]; [apply Hs1, H1|].
      destruct (Hs2 p H2) as [Ho Hr]. split.
      * apply (quiet_step_owned _ _ p Hq). exact Ho.
      * apply (quiet_step_running _ _ p Hq). exact Hr.
Qed.

(** X10. When the start calls raise an [Exception] or
    [KeyboardInterrupt], the shutdown routine runs twice in the run: in
    the [except] clause of [main], and again when the interpreter calls
    the functions registered with [atexit]. From that second pass on a
    child is asked to stop only if it is owned and the first pass had to
    kill it (the kill does not wait, so the child may still be found
    running); when the first pass killed nobody, everything from the
    second pass on only logs and polls. *)
Theorem failing_run_shuts_down_twice (w : World) (s : State) (e : exn) :
  let s2 := snd (startup w (snd (install_handlers w s))) in
  fst (startup w (snd (install_handlers w s))) = Raise e ->
  is_Exception e = true \/ e = KeyboardInterrupt ->
  exists msg first_pass second_pass,
    trace (snd (script w s))
    = (trace s2
       ++ EPrint msg :: EPrint "Cleaning up processes..." :: first_pass
       ++ EPrint "Cleaning up processes..." :: second_pass)%list
    /\ (forall p,
          In (ETerminate p) second_pass \/ In (EKill p) second_pass ->
          owned s2 p /\ In (EKill p) first_pass)
    /\ ((forall p, ~ In (EKill p) first_pass) ->
        Forall (fun ev => stops ev = false) second_pass).
Proof.
  intros s2 Hraise Hkind.
  destruct (main_effect w s) as (Ha & _).
  assert (Hmain : exists msg code,
             main w s = (print msg;; cleanup_processes w;; @sys_exit unit code) s2).
  { rewrite main_run. unfold try_except. subst s2.
    destruct (startup w (snd (install_handlers w s))) as [r0 s0].
    cbn in Hraise |- *. subst r0.
    destruct Hkind as [Hkind | ->]; [|eexists; eexists; reflexivity].
    destruct e; cbn in Hkind |- *; try discriminate Hkind;
      eexists; eexists; reflexivity. }
  destruct Hmain as (msg & code & Hmain).
  destruct (log_cleanup_exit w msg code s2) as (_ & _ & evs1 & Ht1 & Hex1).
  unfold script. rewrite Hmain in Ha |- *.
  destruct ((print msg;; cleanup_processes w;; @sys_exit unit code) s2) as [r3 s3] eqn:Hout.
  cbn [fst snd] in Ha, Ht1, Hex1 |- *.
  assert (Hquiet : quiet_step s2 s3).
  { pose proof (quiet_log_cleanup_exit w msg code s2) as Hq.
    rewrite Hout in Hq. exact Hq. }
  rewrite Ha, rev_app_distr. cbn [rev app].
  destruct (run_atexit_stops_running w (cb_cleanup_processes :: rev (atexit_handlers s)) s3)
    as (evs & Ht & Hstops).
  assert (Hhead : exists second_pass,
             evs = EPrint "Cleaning up processes..." :: second_pass).
  { revert Ht. cbn [run_atexit call_back].
    destruct (cleanup_processes_result w s3) as (_ & evs2 & Ht2 & _).
    destruct (quiet_trace _ _ (run_atexit_quiet w (rev (atexit_handlers s))
                                 (snd (cleanup_processes w s3))))
      as (evs3 & Ht3 & _).
    rewrite Ht3, Ht2, <- app_assoc. intros Ht. apply app_inv_head in Ht.
    exists (evs2 ++ evs3)%list. symmetry. exact Ht. }
  destruct Hhead as (second_pass & ->).
  assert (Hsecond : forall p,
             In (ETerminate p) second_pass \/ In (EKill p) second_pass ->
             owned s2 p /\ In (EKill p) evs1).
  { intros p Hin.
    destruct (Hstops p) as [Ho Hr]; [destruct Hin; [left | right]; right; assumption|].
    apply (quiet_step_owned _ _ p Hquiet) in Ho. split; [exact Ho|].
    destruct (Hex1 p Ho) as [_ [Hex | Hkill]]; [|exact Hkill].
    unfold has_exited in Hex. unfold is_running in Hr. congruence. }
  exists msg, evs1, second_pass. split; [|split].
  - rewrite Ht, Ht1, <- !app_assoc. cbn. reflexivity.
  - exact Hsecond.
  - intros Hnone. apply Forall_forall. intros ev Hin.
    destruct ev; try reflexivity; exfalso;
      match goal with
      | H : In (_ ?p) second_pass |- _ =>
          apply (Hnone p), (Hsecond p); auto
      end.
Qed.

Lemma failing_run_shuts_down_twice_witness :
  exists msg first_pass second_pass,
    trace (snd (script (server_fails_world (OSError "Permission denied")) initial_state))
    = (trace (snd (startup (server_fails_world (OSError "Permission denied"))
                     (snd (install_handlers (server_fails_world (OSError "Permission denied"))
                             initial_state))))
       ++ EPrint msg :: EPrint "Cleaning up processes..." :: first_pass
       ++ EPrint "Cleaning up processes..." :: second_pass)%list
    /\ (forall p,
          In (ETerminate p) second_pass \/ In (EKill p) second_pass ->
          owned (snd (startup (server_fails_world (OSError "Permission denied"))
                        (snd (install_handlers
                                (server_fails_world (OSError "Permission denied"))
                                initial_state)))) p
          /\ In (EKill p) first_pass)
    /\ ((forall p, ~ In (EKill p) first_pass) ->
        Forall (fun ev => stops ev = false) second_pass).
Proof.
  apply (failing_run_shuts_down_twice (server_fails_world (OSError "Permission denied"))
           initial_state (OSError "Permission denied"));
    [reflexivity | left; reflexivity].
Defined.
